(** * Rush [generate]: temp-project package.json synthesis

    A shallow embedding of [GenerateAction.onExecute]
    (rush/rush/src/actions/GenerateAction.ts): the clean-up of the common
    folder, the loop that creates one temp project per Rush project and
    decides, dependency by dependency, between a local link
    ([rushDependencies]) and a regular dependency ([dependencies]), and the
    writing of common/package.json.  The model stops before the external
    [npm install] / [npm shrinkwrap] subprocesses. *)

From Stdlib Require Import NArith Ascii String.
From stdpp Require Import base decidable option list strings gmap.

Local Open Scope string_scope.

(** ** JavaScript objects with string keys

    An object used as a map is the list of its own properties in the order
    [Object.keys] enumerates them: array-index keys first, in ascending
    numeric order, then the other keys in insertion order.  The keys are
    package names, so the inherited accessor [__proto__] is not one of
    them. *)
Module JsObject.

Definition t (V : Type) : Type := list (string * V).

Definition digitOf (a : ascii) : option N :=
  let n := N_of_ascii a in
  if ((48 <=? n) && (n <=? 57))%N then Some (n - 48)%N else None.

Fixpoint parseDigits (acc : N) (s : string) : option N :=
  match s with
  | EmptyString => Some acc
  | String a s' =>
      match digitOf a with
      | Some d => parseDigits (10 * acc + d)%N s'
      | None => None
      end
  end.

(** A key is an array index when it is the canonical decimal form of an
    integer below 2^32 - 1. *)
Definition arrayIndex (k : string) : option N :=
  match k with
  | EmptyString => None
  | String "0"%char EmptyString => Some 0%N
  | String "0"%char _ => None
  | _ =>
      match parseDigits 0 k with
      | Some n => if (n <=? 4294967294)%N then Some n else None
      | None => None
      end
  end.

Section Ops.
Context {V : Type}.

Definition keys (o : t V) : list string := o.*1.

(** [o[k]] for an own property; [None] stands for [undefined]. *)
Fixpoint get (k : string) (o : t V) : option V :=
  match o with
  | [] => None
  | (k', v) :: o' => if decide (k' = k) then Some v else get k o'
  end.

Definition has (k : string) (o : t V) : bool := bool_decide (k ∈ keys o).

(** Assignment to an existing property keeps its position. *)
Fixpoint replace (k : string) (v : V) (o : t V) : t V :=
  match o with
  | [] => []
  | (k', v') :: o' =>
      if decide (k' = k) then (k, v) :: o' else (k', v') :: replace k v o'
  end.

(** A new array-index key goes after the smaller indices. *)
Fixpoint insertIndex (n : N) (k : string) (v : V) (o : t V) : t V :=
  match o with
  | [] => [(k, v)]
  | (k', v') :: o' =>
      match arrayIndex k' with
      | Some m =>
          if (m <? n)%N then (k', v') :: insertIndex n k v o'
          else (k, v) :: (k', v') :: o'
      | None => (k, v) :: (k', v') :: o'
      end
  end.

(** [o[k] = v]. *)
Definition set (k : string) (v : V) (o : t V) : t V :=
  if has k o then replace k v o
  else match arrayIndex k with
       | Some n => insertIndex n k v o
       | None => (o ++ [(k, v)])%list
       end.

(** Property names of an object are pairwise distinct. *)
Definition wf (o : t V) : Prop := NoDup (keys o).

End Ops.
End JsObject.

(** ** The [semver] package

    [semver.satisfies (version, range)] is an external dependency of the
    action.  A range that does not parse makes it answer [false] instead
    of throwing.  With a range that parses, it throws a [TypeError] when
    the version is a non-empty string that is not a valid version.
    [satisfies] is the answer whenever there is one, [validRange] and
    [valid] tell whether [semver.validRange] and [semver.valid] accept
    their argument. *)
Class Semver : Type := {
  satisfies : string → string → bool;
  validRange : string → bool;
  satisfies_invalid_range :
    ∀ version range, validRange range = false → satisfies version range = false;
  valid : string → bool
}.

(** How a statement completes: normally, or by a thrown error. *)
Inductive Completion (A : Type) : Type :=
| Normal (a : A)
| Throw (error : string).
Arguments Normal {A} a.
Arguments Throw {A} error.

Definition completed {A : Type} (c : Completion A) : bool :=
  match c with
  | Normal _ => true
  | Throw _ => false
  end.

(** The call [semver.satisfies (version, range)] itself. *)
Definition satisfiesCall `{Semver} (version range : string) : Completion bool :=
  if validRange range
     && negb (bool_decide (version = EmptyString))
     && negb (valid version)
  then Throw ("TypeError: Invalid Version: " ++ version)
  else Normal (satisfies version range).

(** A reference instance for concrete runs.  It covers plain
    MAJOR.MINOR.PATCH versions and the ranges [*], [X.Y.Z], [^X.Y.Z] and
    [~X.Y.Z]; every other range is rejected by this instance. *)
Module SemverCore.

Fixpoint readDigits (acc : N) (s : string) : N * string :=
  match s with
  | EmptyString => (acc, EmptyString)
  | String a s' =>
      match JsObject.digitOf a with
      | Some d => readDigits (10 * acc + d)%N s'
      | None => (acc, s)
      end
  end.

Definition startsWithDigit (s : string) : bool :=
  match s with
  | EmptyString => false
  | String a _ => bool_decide (is_Some (JsObject.digitOf a))
  end.

(** A numeric identifier: digits without a leading zero, at most
    2^53 - 1. *)
Definition readNumber (s : string) : option (N * string) :=
  match s with
  | EmptyString => None
  | String a s' =>
      match JsObject.digitOf a with
      | Some _ =>
          if bool_decide (a = "0"%char) && startsWithDigit s' then None
          else let '(n, rest) := readDigits 0 s in
               if (n <=? 9007199254740991)%N then Some (n, rest) else None
      | None => None
      end
  end.

Definition readDot (s : string) : option string :=
  match s with
  | String "."%char s' => Some s'
  | _ => None
  end.

Definition parse (s : string) : option (N * N * N) :=
  '(major, s) ← readNumber s;
  s ← readDot s;
  '(minor, s) ← readNumber s;
  s ← readDot s;
  '(patch, s) ← readNumber s;
  if decide (s = EmptyString) then Some (major, minor, patch) else None.

Definition ltb (a b : N * N * N) : bool :=
  let '(x1, y1, z1) := a in
  let '(x2, y2, z2) := b in
  ((x1 <? x2) || ((x1 =? x2) && ((y1 <? y2) || ((y1 =? y2) && (z1 <? z2)))))%N.

Inductive Range : Type :=
| Any
| Exact (v : N * N * N)
| Caret (v : N * N * N)
| Tilde (v : N * N * N).

Definition parseRange (r : string) : option Range :=
  match r with
  | "*" => Some Any
  | String "^"%char s => Caret <$> parse s
  | String "~"%char s => Tilde <$> parse s
  | _ => Exact <$> parse r
  end.

Definition caretUpper (v : N * N * N) : N * N * N :=
  let '(x, y, z) := v in
  if (0 <? x)%N then (x + 1, 0, 0)%N
  else if (0 <? y)%N then (0, y + 1, 0)%N
  else (0, 0, z + 1)%N.

Definition test (v : N * N * N) (r : Range) : bool :=
  match r with
  | Any => true
  | Exact w => bool_decide (v = w)
  | Caret w => negb (ltb v w) && ltb v (caretUpper w)
  | Tilde w => negb (ltb v w) && ltb v (let '(x, y, _) := w in (x, y + 1, 0)%N)
  end.

Definition satisfies (version range : string) : bool :=
  match parseRange range, parse version with
  | Some r, Some v => test v r
  | _, _ => false
  end.

Definition validRange (range : string) : bool :=
  bool_decide (is_Some (parseRange range)).

Definition valid (version : string) : bool :=
  bool_decide (is_Some (parse version)).

End SemverCore.

(** ** Data model *)

(** The fields of a package.json that the action reads or writes.  An
    absent field is [None]; a present object, even an empty one, is
    [Some]. *)
Module PackageJson.
Record t : Type := mk {
  name : string;
  version : string;
  description : option string;
  private : option bool;
  dependencies : option (JsObject.t string);
  devDependencies : option (JsObject.t string);
  optionalDependencies : option (JsObject.t string)
}.
End PackageJson.

(** The temp project's package.json.  The object literal it starts from
    always has [dependencies]; [optionalDependencies] and
    [rushDependencies] are added later, in that order, or never. *)
Module IPackageJson.
Record t : Type := mk {
  name : string;
  version : string;
  private : bool;
  dependencies : JsObject.t string;
  optionalDependencies : option (JsObject.t string);
  rushDependencies : option (JsObject.t string)
}.
End IPackageJson.

Module RushConfigProject.
Record t : Type := mk {
  packageName : string;
  tempProjectName : string;
  packageJson : PackageJson.t;
  cyclicDependencyProjects : gset string
}.
End RushConfigProject.

Module RushConfig.
Record t : Type := mk {
  projects : list RushConfigProject.t;
  packageReviewFile : option string
}.

(** Modelled from the spec: [RushConfig.getProjectByName] belongs to
    rush-lib; the workspace index holds all projects keyed by their
    package name, and the lookup answers [undefined] for an unknown
    name. *)
Definition getProjectByName (rushConfig : t) (projectName : string)
  : option RushConfigProject.t :=
  snd <$> list_find (λ p, RushConfigProject.packageName p = projectName)
                    (projects rushConfig).
End RushConfig.

Record Pair : Type := mkPair {
  packageName : string;
  packageVersion : string
}.

(** A JSON document, with the properties of an object in the order the
    serializer walks them. *)
#[local] Unset Elimination Schemes.
Inductive Json : Type :=
| JString (s : string)
| JBool (b : bool)
| JObject (properties : list (string * Json)).
#[local] Set Elimination Schemes.

Definition jsonOfDeps (o : JsObject.t string) : Json :=
  JObject (prod_map id JString <$> o).

Definition optionalProperty (k : string) (o : option (JsObject.t string))
  : list (string * Json) :=
  match o with
  | Some d => [(k, jsonOfDeps d)]
  | None => []
  end.

Definition jsonOfTempPackageJson (p : IPackageJson.t) : Json :=
  JObject ([("name", JString (IPackageJson.name p));
            ("version", JString (IPackageJson.version p));
            ("private", JBool (IPackageJson.private p));
            ("dependencies", jsonOfDeps (IPackageJson.dependencies p))]
           ++ optionalProperty "optionalDependencies" (IPackageJson.optionalDependencies p)
           ++ optionalProperty "rushDependencies" (IPackageJson.rushDependencies p))%list.

Definition jsonOfCommonPackageJson (p : PackageJson.t) : Json :=
  JObject (optionalProperty "dependencies" (PackageJson.dependencies p)
           ++ from_option (λ d, [("description", JString d)]) [] (PackageJson.description p)
           ++ [("name", JString (PackageJson.name p))]
           ++ from_option (λ b, [("private", JBool b)]) [] (PackageJson.private p)
           ++ [("version", JString (PackageJson.version p))])%list.

(** ** The world the action runs in

    The part of the common folder the action touches: common/node_modules
    (the names of its entries), common/temp_modules (one sub-folder per temp
    project, each holding a package.json once it has been saved),
    common/npm-shrinkwrap.json and common/package.json.  A folder or file
    that does not exist is [None] (or [false]). *)
Record FileSystem : Type := mkFileSystem {
  nodeModules : option (list string);
  tempModules : option (list (string * option IPackageJson.t));
  shrinkwrapFile : bool;
  commonPackageJsonFile : option PackageJson.t
}.

Record World : Type := mkWorld {
  fs : FileSystem;
  console : list string;
  EOL : string
}.

Definition M (A : Type) : Type := World → Completion A * World.

Definition ret {A : Type} (a : A) : M A := λ w, (Normal a, w).

Definition bind {A B : Type} (m : M A) (k : A → M B) : M B :=
  λ w, match m w with
       | (Normal a, w') => k a w'
       | (Throw e, w') => (Throw e, w')
       end.

Notation "'let*' x ':=' m 'in' k" := (bind m (λ x, k))
  (at level 10, x name, m at level 100, k at level 200).
Notation "m ';;' k" := (bind m (λ _, k))
  (at level 100, k at level 200, right associativity).

Definition throw {A : Type} (e : string) : M A := λ w, (Throw e, w).

(** A computation that touches neither the file system nor the console
    but may throw. *)
Definition liftCompletion {A : Type} (c : Completion A) : M A := λ w, (c, w).

Definition modifyFs (f : FileSystem → FileSystem) : M unit :=
  λ w, (Normal (), mkWorld (f (fs w)) (console w) (EOL w)).

Definition getFs : M FileSystem := λ w, (Normal (fs w), w).

Definition getEOL : M string := λ w, (Normal (EOL w), w).

(** [console.log] *)
Definition log (line : string) : M unit :=
  λ w, (Normal (), mkWorld (fs w) (console w ++ [line])%list (EOL w)).

Definition when (b : bool) (m : M unit) : M unit := if b then m else ret ().

(** [for (const x of xs)] over a loop body that updates a local value. *)
Fixpoint forOf {A B : Type} (xs : list A) (body : B → A → M B) (b : B) : M B :=
  match xs with
  | [] => ret b
  | x :: xs' => let* b' := body b x in forOf xs' body b'
  end.

Definition quote : string := String (ascii_of_nat 34) EmptyString.

Definition startsWith (prefix s : string) : bool := String.prefix prefix s.

(** ** The loop body, project by project *)

Inductive Kind : Type := LocalLink | ExternalRegistry.

#[export] Instance Kind_eq_dec : EqDecision Kind.
Proof. solve_decision. Defined.

#[export] Instance Pair_eq_dec : EqDecision Pair.
Proof. solve_decision. Defined.

(** A name that is a single path segment: joined to a folder it names a
    direct sub-folder. *)
Definition isPathSegment (name : string) : bool :=
  negb (bool_decide (name = EmptyString))
  && negb (bool_decide (name = "."))
  && negb (bool_decide (name = ".."))
  && forallb (λ a, negb (bool_decide (a = ascii_of_nat 47))
                   && negb (bool_decide (a = ascii_of_nat 92)))
             (list_ascii_of_string name).

(** How the file system tells sub-folders of one folder apart:
    [folderKey] is the name itself where names are case-sensitive, and a
    folded form of it where they are not. *)
Class Folders : Type := {
  folderKey : string → string
}.

Section Generate.
Context `{Semver} `{Folders}.
Variable rushConfig : RushConfig.t.

(** The pairs of one dependency field, in [Object.keys] order; the value
    read back for a key is the value of its entry. *)
Definition pairsOf (field : option (JsObject.t string)) : list Pair :=
  match field with
  | Some o => (λ e, mkPair e.1 e.2) <$> o
  | None => []
  end.

(** [pairs] after both pushes: devDependencies first, then dependencies. *)
Definition collectPairs (packageJson : PackageJson.t) : list Pair :=
  (pairsOf (PackageJson.devDependencies packageJson)
   ++ pairsOf (PackageJson.dependencies packageJson))%list.

Definition addDependency (tempPackageJson : IPackageJson.t) (pair : Pair)
  : IPackageJson.t :=
  IPackageJson.mk
    (IPackageJson.name tempPackageJson)
    (IPackageJson.version tempPackageJson)
    (IPackageJson.private tempPackageJson)
    (JsObject.set (packageName pair) (packageVersion pair)
                  (IPackageJson.dependencies tempPackageJson))
    (IPackageJson.optionalDependencies tempPackageJson)
    (IPackageJson.rushDependencies tempPackageJson).

Definition addRushDependency (tempPackageJson : IPackageJson.t) (pair : Pair)
  : IPackageJson.t :=
  let rushDependencies :=
    match IPackageJson.rushDependencies tempPackageJson with
    | Some o => o
    | None => []
    end in
  IPackageJson.mk
    (IPackageJson.name tempPackageJson)
    (IPackageJson.version tempPackageJson)
    (IPackageJson.private tempPackageJson)
    (IPackageJson.dependencies tempPackageJson)
    (IPackageJson.optionalDependencies tempPackageJson)
    (Some (JsObject.set (packageName pair) (packageVersion pair) rushDependencies)).

(** The body of [for (const pair of pairs)]. *)
Definition addPair (rushProject : RushConfigProject.t)
    (tempPackageJson : IPackageJson.t) (pair : Pair) : IPackageJson.t :=
  match RushConfig.getProjectByName rushConfig (packageName pair) with
  | Some localProject =>
      if negb (bool_decide (packageName pair
                 ∈ RushConfigProject.cyclicDependencyProjects rushProject))
      then
        let localProjectVersion :=
          PackageJson.version (RushConfigProject.packageJson localProject) in
        if satisfies localProjectVersion (packageVersion pair)
        then addRushDependency tempPackageJson pair
        else addDependency tempPackageJson pair
      else addDependency tempPackageJson pair
  | None => addDependency tempPackageJson pair
  end.

(** The decision [addPair] takes, as a value. *)
Definition classify (rushProject : RushConfigProject.t) (pair : Pair) : Kind :=
  match RushConfig.getProjectByName rushConfig (packageName pair) with
  | Some localProject =>
      if negb (bool_decide (packageName pair
                 ∈ RushConfigProject.cyclicDependencyProjects rushProject))
      then
        if satisfies (PackageJson.version (RushConfigProject.packageJson localProject))
                     (packageVersion pair)
        then LocalLink
        else ExternalRegistry
      else ExternalRegistry
  | None => ExternalRegistry
  end.

Definition initialTempPackageJson (rushProject : RushConfigProject.t)
  : IPackageJson.t :=
  let packageJson := RushConfigProject.packageJson rushProject in
  let tempPackageJson :=
    IPackageJson.mk (RushConfigProject.tempProjectName rushProject)
                    "0.0.0" true [] None None in
  match PackageJson.optionalDependencies packageJson with
  | Some optionalDependencies =>
      IPackageJson.mk
        (IPackageJson.name tempPackageJson)
        (IPackageJson.version tempPackageJson)
        (IPackageJson.private tempPackageJson)
        (IPackageJson.dependencies tempPackageJson)
        (Some optionalDependencies)
        (IPackageJson.rushDependencies tempPackageJson)
  | None => tempPackageJson
  end.

(** The object handed to [JsonFile.saveJsonFile] for one project. *)
Definition createTempPackageJson (rushProject : RushConfigProject.t)
  : IPackageJson.t :=
  fold_left (addPair rushProject)
            (collectPairs (RushConfigProject.packageJson rushProject))
            (initialTempPackageJson rushProject).

(** *** The loop over the pairs, throwing

    [addPair] and [createTempPackageJson] give what the loop computes when
    every call of [semver.satisfies] answers.  The call throws on an
    invalid version of the Rush project that was looked up; the error then
    leaves the loop over the pairs and the loop over the projects. *)

(** The error the body throws at [pair], if it throws. *)
Definition pairError (rushProject : RushConfigProject.t) (pair : Pair)
  : option string :=
  match RushConfig.getProjectByName rushConfig (packageName pair) with
  | Some localProject =>
      if negb (bool_decide (packageName pair
                 ∈ RushConfigProject.cyclicDependencyProjects rushProject))
      then
        match satisfiesCall
                (PackageJson.version (RushConfigProject.packageJson localProject))
                (packageVersion pair) with
        | Throw e => Some e
        | Normal _ => None
        end
      else None
  | None => None
  end.

(** The body of [for (const pair of pairs)], with the call as it is. *)
Definition processPair (rushProject : RushConfigProject.t)
    (tempPackageJson : IPackageJson.t) (pair : Pair) : Completion IPackageJson.t :=
  match RushConfig.getProjectByName rushConfig (packageName pair) with
  | Some localProject =>
      if negb (bool_decide (packageName pair
                 ∈ RushConfigProject.cyclicDependencyProjects rushProject))
      then
        let localProjectVersion :=
          PackageJson.version (RushConfigProject.packageJson localProject) in
        match satisfiesCall localProjectVersion (packageVersion pair) with
        | Throw e => Throw e
        | Normal true => Normal (addRushDependency tempPackageJson pair)
        | Normal false => Normal (addDependency tempPackageJson pair)
        end
      else Normal (addDependency tempPackageJson pair)
  | None => Normal (addDependency tempPackageJson pair)
  end.

Fixpoint processPairs (rushProject : RushConfigProject.t) (pairs : list Pair)
    (tempPackageJson : IPackageJson.t) : Completion IPackageJson.t :=
  match pairs with
  | [] => Normal tempPackageJson
  | next :: pairs' =>
      match processPair rushProject tempPackageJson next with
      | Normal tempPackageJson' => processPairs rushProject pairs' tempPackageJson'
      | Throw e => Throw e
      end
  end.

(** Lines 124 to 184 for one project: the temp package.json, or the
    error that stops the run. *)
Definition buildTempPackageJson (rushProject : RushConfigProject.t)
  : Completion IPackageJson.t :=
  processPairs rushProject
               (collectPairs (RushConfigProject.packageJson rushProject))
               (initialTempPackageJson rushProject).

(** *** File-system primitives *)

Definition setNodeModules (v : option (list string)) (f : FileSystem) : FileSystem :=
  mkFileSystem v (tempModules f) (shrinkwrapFile f) (commonPackageJsonFile f).

Definition setTempModules (v : option (list (string * option IPackageJson.t)))
    (f : FileSystem) : FileSystem :=
  mkFileSystem (nodeModules f) v (shrinkwrapFile f) (commonPackageJsonFile f).

Definition setShrinkwrapFile (v : bool) (f : FileSystem) : FileSystem :=
  mkFileSystem (nodeModules f) (tempModules f) v (commonPackageJsonFile f).

Definition setCommonPackageJsonFile (v : option PackageJson.t) (f : FileSystem)
  : FileSystem :=
  mkFileSystem (nodeModules f) (tempModules f) (shrinkwrapFile f) v.

(** [Utilities.createFolderWithRetry (tempModulesFolder)] *)
Definition createTempModulesFolder : M unit :=
  let* f := getFs in
  match tempModules f with
  | None => modifyFs (setTempModules (Some []))
  | Some _ => throw "EEXIST"
  end.

(** [fsx.mkdirSync (tempProjectFolder)]: the folder must not exist yet,
    its parent must.  This describes the call for a [tempProjectName] that
    is a single path segment ([isPathSegment]), which makes the folder a
    direct sub-folder of common/temp_modules; the file system decides
    through [folderKey] whether it is already there. *)
Definition mkdirSync (tempProjectName : string) : M unit :=
  let* f := getFs in
  match tempModules f with
  | None => throw "ENOENT"
  | Some entries =>
      if bool_decide (folderKey tempProjectName ∈ folderKey <$> entries.*1)
      then throw "EEXIST"
      else modifyFs (setTempModules (Some (entries ++ [(tempProjectName, None)])%list))
  end.

Definition writePackageJson (tempProjectName : string) (data : IPackageJson.t)
    (entries : list (string * option IPackageJson.t))
  : list (string * option IPackageJson.t) :=
  (λ e, if decide (folderKey e.1 = folderKey tempProjectName)
        then (e.1, Some data) else e) <$> entries.

(** [JsonFile.saveJsonFile (tempPackageJson, tempPackageJsonFilename)] *)
Definition saveTempPackageJson (tempProjectName : string) (data : IPackageJson.t)
  : M unit :=
  let* f := getFs in
  match tempModules f with
  | None => throw "ENOENT"
  | Some entries =>
      if bool_decide (folderKey tempProjectName ∈ folderKey <$> entries.*1)
      then modifyFs (setTempModules (Some (writePackageJson tempProjectName data entries)))
      else throw "ENOENT"
  end.

(** [commonPackageJson.dependencies[k] = v] *)
Definition setCommonDependency (k v : string) (commonPackageJson : PackageJson.t)
  : PackageJson.t :=
  PackageJson.mk
    (PackageJson.name commonPackageJson)
    (PackageJson.version commonPackageJson)
    (PackageJson.description commonPackageJson)
    (PackageJson.private commonPackageJson)
    (JsObject.set k v <$> PackageJson.dependencies commonPackageJson)
    (PackageJson.devDependencies commonPackageJson)
    (PackageJson.optionalDependencies commonPackageJson).

(** The body of [for (const rushProject of this._rushConfig.projects)]. *)
Definition createTempProject (commonPackageJson : PackageJson.t)
    (rushProject : RushConfigProject.t) : M PackageJson.t :=
  let tempProjectName := RushConfigProject.tempProjectName rushProject in
  mkdirSync tempProjectName ;;
  let commonPackageJson :=
    setCommonDependency tempProjectName ("file:./temp_modules/" ++ tempProjectName)
                        commonPackageJson in
  let* tempPackageJson := liftCompletion (buildTempPackageJson rushProject) in
  saveTempPackageJson tempProjectName tempPackageJson ;;
  ret commonPackageJson.

Definition initialCommonPackageJson : PackageJson.t :=
  PackageJson.mk "rush-common" "0.0.0"
                 (Some "Temporary file generated by the Rush tool")
                 (Some true) (Some []) None None.

(** *** [onExecute], up to the writing of common/package.json

    [PackageReviewChecker.saveCurrentDependencies] only writes the package
    review file, which is not part of [FileSystem]; the stopwatch is read
    after the npm steps only. *)
Definition onExecute (lazy : bool) : M unit :=
  let* eol := getEOL in
  log ("Starting " ++ quote ++ "rush generate" ++ quote ++ eol) ;;
  (* 1. Delete common/node_modules *)
  (if lazy then
     log "Deleting common/node_modules/rush-*" ;;
     modifyFs (λ f, setNodeModules
                      (filter (λ entry, ¬ startsWith "rush-" entry) <$> nodeModules f) f)
   else
     let* f := getFs in
     when (bool_decide (is_Some (nodeModules f)))
          (log "Deleting common/node_modules folder..." ;;
           modifyFs (setNodeModules None))) ;;
  (* 2. Delete common/temp_modules *)
  (let* f := getFs in
   when (bool_decide (is_Some (tempModules f)))
        (log "Deleting common/temp_modules folder" ;;
         modifyFs (setTempModules None))) ;;
  (* 3. Delete the previous npm-shrinkwrap.json *)
  (let* f := getFs in
   when (shrinkwrapFile f)
        (log "Deleting common/npm-shrinkwrap.json" ;;
         modifyFs (setShrinkwrapFile false))) ;;
  (* 4. Construct common/package.json and common/temp_modules *)
  log "Creating a clean common/temp_modules folder" ;;
  createTempModulesFolder ;;
  log "Creating temp projects..." ;;
  let* commonPackageJson :=
    forOf (RushConfig.projects rushConfig) createTempProject
          initialCommonPackageJson in
  log "Writing common/package.json" ;;
  modifyFs (setCommonPackageJsonFile (Some commonPackageJson)).

End Generate.

(** The temp package.json files present after a run, in creation order. *)
Definition tempPackageJsonFiles (w : World) : list (string * IPackageJson.t) :=
  match tempModules (fs w) with
  | Some entries => omap (λ e, pair e.1 <$> e.2) entries
  | None => []
  end.

(** ** Observations used in the statements *)

(** The specifier recorded for [n] as a regular dependency. *)
Definition depOf (tempPackageJson : IPackageJson.t) (n : string) : option string :=
  JsObject.get n (IPackageJson.dependencies tempPackageJson).

(** The specifier recorded for [n] as a local link; [None] also when the
    [rushDependencies] field is absent. *)
Definition rushOf (tempPackageJson : IPackageJson.t) (n : string) : option string :=
  IPackageJson.rushDependencies tempPackageJson ≫= JsObject.get n.

Definition field (o : option (JsObject.t string)) : JsObject.t string :=
  default [] o.

(** The specifier a package.json declares for [n] when the regular
    dependency takes precedence over the devDependency. *)
Definition winningSpecifier (packageJson : PackageJson.t) (n : string) : option string :=
  match JsObject.get n (field (PackageJson.dependencies packageJson)) with
  | Some s => Some s
  | None => JsObject.get n (field (PackageJson.devDependencies packageJson))
  end.

(** Both dependency fields are objects: no property name occurs twice. *)
Definition wfPackageJson (packageJson : PackageJson.t) : Prop :=
  JsObject.wf (field (PackageJson.dependencies packageJson))
  ∧ JsObject.wf (field (PackageJson.devDependencies packageJson)).

(** The specifiers of the pairs named [n] that are classified [kind], in
    the order the loop meets them. *)
Definition specifiersOf `{Semver} (rushConfig : RushConfig.t)
    (rushProject : RushConfigProject.t) (kind : Kind) (n : string)
    (pairs : list Pair) : list string :=
  packageVersion <$>
    filter (λ pair, packageName pair = n ∧ classify rushConfig rushProject pair = kind)
           pairs.

(** common/package.json as the loop leaves it after [projects]. *)
Definition commonPackageJsonOf (projects : list RushConfigProject.t) : PackageJson.t :=
  fold_left (λ c p, setCommonDependency
                      (RushConfigProject.tempProjectName p)
                      ("file:./temp_modules/" ++ RushConfigProject.tempProjectName p) c)
            projects initialCommonPackageJson.

Definition jsonKeys (j : Json) : list string :=
  match j with
  | JObject properties => properties.*1
  | _ => []
  end.

(** The same project with another [optionalDependencies] field. *)
Definition withOptionalDependencies (o : option (JsObject.t string))
    (rushProject : RushConfigProject.t) : RushConfigProject.t :=
  let packageJson := RushConfigProject.packageJson rushProject in
  RushConfigProject.mk
    (RushConfigProject.packageName rushProject)
    (RushConfigProject.tempProjectName rushProject)
    (PackageJson.mk
       (PackageJson.name packageJson)
       (PackageJson.version packageJson)
       (PackageJson.description packageJson)
       (PackageJson.private packageJson)
       (PackageJson.dependencies packageJson)
       (PackageJson.devDependencies packageJson)
       o)
    (RushConfigProject.cyclicDependencyProjects rushProject).

(** The folders of the temp projects, as the file system identifies
    them. *)
Definition folderKeys `{Folders} (projects : list RushConfigProject.t) : list string :=
  (λ p, folderKey (RushConfigProject.tempProjectName p)) <$> projects.

(** No project of the list asks for a folder that is already there, be
    it one of [seen] or that of an earlier project of the list. *)
Fixpoint allFresh `{Folders} (seen : list string)
    (projects : list RushConfigProject.t) : bool :=
  match projects with
  | [] => true
  | p :: projects' =>
      negb (bool_decide (folderKey (RushConfigProject.tempProjectName p) ∈ seen))
      && allFresh (seen ++ [folderKey (RushConfigProject.tempProjectName p)])%list
                  projects'
  end.

(** The error that stops the loop over the pairs of a project, if there
    is one: that of the first pair whose lookup makes [semver.satisfies]
    throw. *)
Definition projectError `{Semver} (rushConfig : RushConfig.t)
    (rushProject : RushConfigProject.t) : option string :=
  head (omap (pairError rushConfig rushProject)
             (collectPairs (RushConfigProject.packageJson rushProject))).

(** The temp project folders of [projects], each with its saved
    package.json. *)
Definition savedTempProjects `{Semver} (rushConfig : RushConfig.t)
    (projects : list RushConfigProject.t) : list (string * option IPackageJson.t) :=
  (λ p, (RushConfigProject.tempProjectName p,
         Some (createTempPackageJson rushConfig p))) <$> projects.

(** What the loop over the projects leaves under common/temp_modules,
    given the folders [seen] that are there already, and the error it
    stops with, if it stops: a folder that cannot be created a second time,
    or a [semver] error, which leaves the folder just created without a
    package.json. *)
Fixpoint tempProjectsLoop `{Semver} `{Folders} (rushConfig : RushConfig.t)
    (seen : list string) (projects : list RushConfigProject.t)
  : list (string * option IPackageJson.t) * option string :=
  match projects with
  | [] => ([], None)
  | p :: projects' =>
      let n := RushConfigProject.tempProjectName p in
      if bool_decide (folderKey n ∈ seen) then ([], Some "EEXIST")
      else match projectError rushConfig p with
           | Some e => ([(n, None)], Some e)
           | None =>
               let rest := tempProjectsLoop rushConfig (seen ++ [folderKey n])%list
                                            projects' in
               ((n, Some (createTempPackageJson rushConfig p)) :: rest.1, rest.2)
           end
  end.

(** common/node_modules after step 1. *)
Definition cleanedNodeModules (lazy : bool) (f : FileSystem) : option (list string) :=
  if lazy then filter (λ entry, ¬ startsWith "rush-" entry) <$> nodeModules f
  else None.

(** The lines a run prints, given the file system it starts from and
    whether the loop over the projects completes. *)
Definition consoleOutput (lazy : bool) (f : FileSystem) (eol : string)
    (completes : bool) : list string :=
  ([("Starting " ++ quote ++ "rush generate" ++ quote ++ eol)%string]
   ++ (if lazy then ["Deleting common/node_modules/rush-*"]
       else if bool_decide (is_Some (nodeModules f))
            then ["Deleting common/node_modules folder..."] else [])
   ++ (if bool_decide (is_Some (tempModules f))
       then ["Deleting common/temp_modules folder"] else [])
   ++ (if shrinkwrapFile f then ["Deleting common/npm-shrinkwrap.json"] else [])
   ++ ["Creating a clean common/temp_modules folder"; "Creating temp projects..."]
   ++ (if completes then ["Writing common/package.json"] else []))%list.

(** The same project without any dependency declaration. *)
Definition withoutDependencies (rushProject : RushConfigProject.t)
  : RushConfigProject.t :=
  let packageJson := RushConfigProject.packageJson rushProject in
  RushConfigProject.mk
    (RushConfigProject.packageName rushProject)
    (RushConfigProject.tempProjectName rushProject)
    (PackageJson.mk
       (PackageJson.name packageJson)
       (PackageJson.version packageJson)
       (PackageJson.description packageJson)
       (PackageJson.private packageJson)
       None None None)
    (RushConfigProject.cyclicDependencyProjects rushProject).

(** The same workspace without any dependency declaration. *)
Definition stripDependencies (rushConfig : RushConfig.t) : RushConfig.t :=
  RushConfig.mk (withoutDependencies <$> RushConfig.projects rushConfig)
                (RushConfig.packageReviewFile rushConfig).

(** The documents a run has saved, by path under the common folder: the
    temp package.json files in creation order, then common/package.json
    when the run got that far. *)
Definition writtenDocuments (result : Completion unit * World) : list (string * Json) :=
  (((λ e, (("temp_modules/" ++ e.1 ++ "/package.json")%string,
           jsonOfTempPackageJson e.2))
      <$> tempPackageJsonFiles result.2)
   ++ match result.1, commonPackageJsonFile (fs result.2) with
      | Normal _, Some c => [("package.json", jsonOfCommonPackageJson c)]
      | _, _ => []
      end)%list.

(** ** A sample workspace *)
Module Sample.

Definition project (name version : string)
    (dependencies devDependencies optionalDependencies : option (JsObject.t string))
    (cyclic : gset string) : RushConfigProject.t :=
  RushConfigProject.mk name ("rush-" ++ name)
    (PackageJson.mk name version None None
                    dependencies devDependencies optionalDependencies)
    cyclic.

Definition utils : RushConfigProject.t :=
  project "utils" "1.2.0" None None None ∅.

(** [utils] is a devDependency in a range the local project satisfies and
    a regular dependency in a range it does not. *)
Definition web : RushConfigProject.t :=
  project "web" "1.0.0"
          (Some [("utils", "^2.0.0")]) (Some [("utils", "^1.0.0")]) None ∅.

Definition app : RushConfigProject.t :=
  project "app" "0.3.0"
          (Some [("utils", "^1.0.0"); ("left-pad", "latest")])
          None (Some []) ∅.

Definition core : RushConfigProject.t :=
  project "core" "1.0.0" (Some [("utils", "^1.0.0")]) None None {["utils"]}.

(** A dependency named like the project's own temp project. *)
Definition selfish : RushConfigProject.t :=
  project "selfish" "1.0.0" (Some [("rush-selfish", "1.0.0")]) None None ∅.

Definition sharedA : RushConfigProject.t :=
  RushConfigProject.mk "@a/shared" "ws-shared"
    (PackageJson.mk "@a/shared" "1.0.0" None None None None None) ∅.

Definition sharedB : RushConfigProject.t :=
  RushConfigProject.mk "@b/shared" "ws-shared"
    (PackageJson.mk "@b/shared" "1.0.0" None None None None None) ∅.

Definition workspace : RushConfig.t :=
  RushConfig.mk [utils; web; app; core] None.

Definition selfishWorkspace : RushConfig.t :=
  RushConfig.mk [selfish] None.

Definition sharedWorkspace : RushConfig.t :=
  RushConfig.mk [sharedA; sharedB] None.

Definition emptyWorld : World :=
  mkWorld (mkFileSystem None None false None) [] (String (ascii_of_nat 10) EmptyString).

End Sample.

(** A file system with case-sensitive names. *)
#[export] Instance exactFolders : Folders := {| folderKey := id |}.

(** More projects around [Sample.utils]. *)
Module MixedSample.

(** [utils] is a Rush project, and the specifier is not a range. *)
Definition docs : RushConfigProject.t :=
  Sample.project "docs" "1.0.0" (Some [("utils", "latest")]) None None ∅.

Definition docsWorkspace : RushConfig.t :=
  RushConfig.mk [Sample.utils; docs] None.



(** A Rush project whose version is not a valid version, and a project
    that depends on it. *)
Definition broken : RushConfigProject.t :=
  Sample.project "broken" "1.0" None None None ∅.

Definition consumer : RushConfigProject.t :=
  Sample.project "consumer" "1.0.0" (Some [("broken", "^1.0.0")]) None None ∅.

Definition brokenWorkspace : RushConfig.t :=
  RushConfig.mk [broken; consumer; Sample.utils] None.

End MixedSample.

(** ** Further observations *)




(** What the loop over the pairs reads of a Rush project it looks up. *)
Definition nameAndVersion (rushProject : RushConfigProject.t) : string * string :=
  (RushConfigProject.packageName rushProject,
   PackageJson.version (RushConfigProject.packageJson rushProject)).

(** * Properties *)

Local Open Scope list_scope.

(** ** Reading and writing object properties *)
Section JsObjectFacts.
Context {V : Type}.
Import JsObject.

Lemma get_None (k : string) (o : t V) : get k o = None ↔ k ∉ keys o.
Proof.
  induction o as [|[k' v] o IH]; simpl.
  - split; [intros _; apply not_elem_of_nil | done].
  - case_decide as Hk; subst.
    + split; [done | intros []; apply elem_of_cons; by left].
    + rewrite IH, not_elem_of_cons.
      split; [intros; split; [congruence | done] | by intros [_ ?]].
Qed.

Lemma get_Some_elem (k : string) (v : V) (o : t V) :
  get k o = Some v → (k, v) ∈ o.
Proof.
  induction o as [|[k' v'] o IH]; simpl; [done|].
  case_decide; subst.
  - intros [= ->]. apply elem_of_cons; by left.
  - intros. apply elem_of_cons; right; auto.
Qed.

Lemma elem_get (k : string) (v : V) (o : t V) :
  wf o → (k, v) ∈ o → get k o = Some v.
Proof.
  unfold wf, keys. induction o as [|[k' v'] o IH]; simpl.
  - intros _ H. by apply elem_of_nil in H.
  - intros Hnd H. apply NoDup_cons in Hnd as [Hk' Hnd].
    apply elem_of_cons in H as [[= <- <-]|H].
    + by rewrite decide_True.
    + case_decide; subst; [|auto].
      exfalso. apply Hk'. apply list_elem_of_fmap. by exists (k, v).
Qed.

Lemma get_replace_eq (k : string) (v : V) (o : t V) :
  k ∈ keys o → get k (replace k v o) = Some v.
Proof.
  induction o as [|[k' v'] o IH]; simpl.
  - intros H. by apply elem_of_nil in H.
  - intros H. destruct (decide (k' = k)) as [->|Hne]; simpl.
    + by rewrite decide_True.
    + rewrite decide_False by done. apply IH.
      apply elem_of_cons in H as [?|?]; [congruence | done].
Qed.

Lemma get_replace_ne (k k' : string) (v : V) (o : t V) :
  k ≠ k' → get k' (replace k v o) = get k' o.
Proof.
  intros Hne. induction o as [|[k0 v0] o IH]; simpl; [done|].
  destruct (decide (k0 = k)) as [->|]; simpl.
  - by rewrite !decide_False.
  - by rewrite IH.
Qed.

Lemma get_insertIndex (n : N) (k k' : string) (v : V) (o : t V) :
  k ∉ keys o →
  get k' (insertIndex n k v o) = if decide (k = k') then Some v else get k' o.
Proof.
  induction o as [|[k0 v0] o IH]; simpl; [done|].
  intros [Hk0 Hk]%not_elem_of_cons.
  destruct (arrayIndex k0) as [m|]; [destruct (m <? n)%N|]; simpl; try done.
  rewrite IH by done. repeat case_decide; congruence.
Qed.

Lemma get_app (k : string) (o1 o2 : t V) :
  get k (o1 ++ o2)%list = match get k o1 with Some v => Some v | None => get k o2 end.
Proof.
  induction o1 as [|[k0 v0] o1 IH]; simpl; [done|]. by case_decide.
Qed.

(** Reading after an assignment. *)
Lemma get_set (k k' : string) (v : V) (o : t V) :
  get k' (set k v o) = if decide (k = k') then Some v else get k' o.
Proof.
  unfold set, has. case_bool_decide as Hin.
  - case_decide as Hk; subst.
    + by apply get_replace_eq.
    + by apply get_replace_ne.
  - destruct (arrayIndex k) as [n|].
    + by apply get_insertIndex.
    + rewrite get_app. simpl. destruct (get k' o) eqn:Hg.
      * case_decide; subst; [|done].
        apply get_None in Hin. congruence.
      * done.
Qed.

Lemma get_set_eq (k : string) (v : V) (o : t V) : get k (set k v o) = Some v.
Proof. rewrite get_set. by rewrite decide_True. Qed.

Lemma get_set_ne (k k' : string) (v : V) (o : t V) :
  k ≠ k' → get k' (set k v o) = get k' o.
Proof. intros. rewrite get_set. by rewrite decide_False. Qed.

Lemma keys_replace (k : string) (v : V) (o : t V) :
  k ∈ keys o → keys (replace k v o) = keys o.
Proof.
  unfold keys. induction o as [|[k0 v0] o IH]; simpl; [done|].
  intros H. case_decide; subst; simpl; [done|].
  f_equal. apply IH. apply elem_of_cons in H as [?|?]; [congruence | done].
Qed.

Lemma keys_insertIndex (n : N) (k : string) (v : V) (o : t V) :
  keys (insertIndex n k v o) ≡ₚ k :: keys o.
Proof.
  unfold keys. induction o as [|[k0 v0] o IH]; simpl; [done|].
  destruct (arrayIndex k0) as [m|]; [destruct (m <? n)%N|]; simpl; try done.
  rewrite IH. apply Permutation_swap.
Qed.

(** Assignment never duplicates a property name. *)
Lemma wf_set (k : string) (v : V) (o : t V) : wf o → wf (set k v o).
Proof.
  unfold wf, set, has. intros Hnd. case_bool_decide as Hin.
  - by rewrite keys_replace.
  - destruct (arrayIndex k) as [n|].
    + rewrite keys_insertIndex. by apply NoDup_cons.
    + unfold keys in *. rewrite fmap_app. simpl.
      apply NoDup_app. split_and!; [done| |apply NoDup_singleton].
      intros x Hx ->%list_elem_of_singleton. done.
Qed.

Lemma elem_of_keys_set (k k' : string) (v : V) (o : t V) :
  k' ∈ keys (set k v o) ↔ k' = k ∨ k' ∈ keys o.
Proof.
  destruct (decide (k' ∈ keys (set k v o))) as [Hin|Hin].
  - split; [|done]. intros _.
    destruct (decide (k' = k)); [by left|right].
    destruct (decide (k' ∈ keys o)) as [|Hn]; [done|].
    apply get_None in Hn. rewrite <- (get_set_ne k k' v) in Hn by done.
    by apply get_None in Hn.
  - split; [done|]. intros Hor. exfalso.
    apply get_None in Hin. rewrite get_set in Hin.
    case_decide; [done|]. destruct Hor; [congruence|].
    by apply get_None in Hin.
Qed.

End JsObjectFacts.

(** ** The reference [semver] instance *)
Lemma semverCore_invalid_range (version range : string) :
  SemverCore.validRange range = false → SemverCore.satisfies version range = false.
Proof.
  unfold SemverCore.validRange, SemverCore.satisfies.
  intros Hr%bool_decide_eq_false.
  destruct (SemverCore.parseRange range); [|done]. destruct Hr. by eexists.
Qed.

#[export] Instance semverCore : Semver :=
  {| satisfies := SemverCore.satisfies;
     validRange := SemverCore.validRange;
     satisfies_invalid_range := semverCore_invalid_range;
     valid := SemverCore.valid |}.

Example caret_minor : satisfies "1.2.0" "^1.0.0" = true.
Proof. reflexivity. Qed.

Example caret_major : satisfies "2.0.0" "^1.0.0" = false.
Proof. reflexivity. Qed.

Example tag_invalid : validRange "latest" = false.
Proof. reflexivity. Qed.

(** ** One pair at a time *)
Section PairFacts.
Context `{Semver}.
Variable rushConfig : RushConfig.t.
Variable rushProject : RushConfigProject.t.

Lemma addPair_classify (t : IPackageJson.t) (pair : Pair) :
  addPair rushConfig rushProject t pair =
    match classify rushConfig rushProject pair with
    | LocalLink => addRushDependency t pair
    | ExternalRegistry => addDependency t pair
    end.
Proof.
  unfold addPair, classify.
  destruct (RushConfig.getProjectByName _ _); [|done].
  destruct (negb _); [|done]. by destruct (satisfies _ _).
Qed.

Lemma depOf_addDependency (t : IPackageJson.t) (pair : Pair) (n : string) :
  depOf (addDependency t pair) n =
    if decide (packageName pair = n) then Some (packageVersion pair) else depOf t n.
Proof. unfold depOf. simpl. apply get_set. Qed.

Lemma rushOf_addRushDependency (t : IPackageJson.t) (pair : Pair) (n : string) :
  rushOf (addRushDependency t pair) n =
    if decide (packageName pair = n) then Some (packageVersion pair) else rushOf t n.
Proof.
  unfold rushOf. simpl. rewrite get_set. case_decide; [done|].
  by destruct (IPackageJson.rushDependencies t).
Qed.

Lemma specifiersOf_cons (kind : Kind) (n : string) (pair : Pair) (pairs : list Pair) :
  specifiersOf rushConfig rushProject kind n (pair :: pairs) =
    if decide (packageName pair = n ∧ classify rushConfig rushProject pair = kind)
    then packageVersion pair :: specifiersOf rushConfig rushProject kind n pairs
    else specifiersOf rushConfig rushProject kind n pairs.
Proof. unfold specifiersOf. rewrite filter_cons. by case_decide. Qed.

(** After the loop, the regular dependency recorded for [n] is the
    specifier of the last pair named [n] that was not locally linked. *)
Lemma depOf_fold (pairs : list Pair) (t : IPackageJson.t) (n : string) :
  depOf (fold_left (addPair rushConfig rushProject) pairs t) n =
    match last (specifiersOf rushConfig rushProject ExternalRegistry n pairs) with
    | Some s => Some s
    | None => depOf t n
    end.
Proof.
  revert t. induction pairs as [|pair pairs IH]; intros t; simpl; [done|].
  rewrite IH, specifiersOf_cons, addPair_classify.
  destruct (classify rushConfig rushProject pair) eqn:Hc.
  - rewrite decide_False by (intros [_ ?]; done). done.
  - rewrite depOf_addDependency. case_decide as Hn.
    + rewrite decide_True by done. rewrite last_cons.
      by destruct (last (specifiersOf _ _ _ _ _)).
    + rewrite decide_False by (intros [? _]; done). done.
Qed.

(** Likewise for the local links. *)
Lemma rushOf_fold (pairs : list Pair) (t : IPackageJson.t) (n : string) :
  rushOf (fold_left (addPair rushConfig rushProject) pairs t) n =
    match last (specifiersOf rushConfig rushProject LocalLink n pairs) with
    | Some s => Some s
    | None => rushOf t n
    end.
Proof.
  revert t. induction pairs as [|pair pairs IH]; intros t; simpl; [done|].
  rewrite IH, specifiersOf_cons, addPair_classify.
  destruct (classify rushConfig rushProject pair) eqn:Hc.
  - rewrite rushOf_addRushDependency. case_decide as Hn.
    + rewrite decide_True by done. rewrite last_cons.
      by destruct (last (specifiersOf _ _ _ _ _)).
    + rewrite decide_False by (intros [? _]; done). done.
  - rewrite decide_False by (intros [_ ?]; done). done.
Qed.

(** The [rushDependencies] field exists after the loop exactly when it
    existed before or some pair was locally linked. *)
Lemma rushDependencies_fold_None (pairs : list Pair) (t : IPackageJson.t) :
  IPackageJson.rushDependencies (fold_left (addPair rushConfig rushProject) pairs t) = None
  ↔ IPackageJson.rushDependencies t = None
    ∧ Forall (λ pair, classify rushConfig rushProject pair = ExternalRegistry) pairs.
Proof.
  revert t. induction pairs as [|pair pairs IH]; intros t; simpl.
  - split; [by intros ?; split | by intros [? _]].
  - rewrite IH, addPair_classify, Forall_cons.
    destruct (classify rushConfig rushProject pair); simpl.
    + split; [by intros [? _] | by intros [_ [? _]]].
    + tauto.
Qed.

Lemma optionalDependencies_fold (pairs : list Pair) (t : IPackageJson.t) :
  IPackageJson.optionalDependencies (fold_left (addPair rushConfig rushProject) pairs t)
  = IPackageJson.optionalDependencies t.
Proof.
  revert t. induction pairs as [|pair pairs IH]; intros t; simpl; [done|].
  rewrite IH, addPair_classify. by destruct (classify _ _ _).
Qed.

Lemma name_fold (pairs : list Pair) (t : IPackageJson.t) :
  IPackageJson.name (fold_left (addPair rushConfig rushProject) pairs t)
  = IPackageJson.name t.
Proof.
  revert t. induction pairs as [|pair pairs IH]; intros t; simpl; [done|].
  rewrite IH, addPair_classify. by destruct (classify _ _ _).
Qed.

End PairFacts.

(** ** The pairs of one package.json *)
Section PairsFacts.

Lemma pairsOf_field (o : option (JsObject.t string)) :
  pairsOf o = (λ e, mkPair e.1 e.2) <$> field o.
Proof. by destruct o. Qed.

Lemma elem_of_pairsOf (o : option (JsObject.t string)) (pair : Pair) :
  pair ∈ pairsOf o ↔ (packageName pair, packageVersion pair) ∈ field o.
Proof.
  rewrite pairsOf_field, list_elem_of_fmap. split.
  - intros [[k v] [-> Hin]]. done.
  - intros Hin. exists (packageName pair, packageVersion pair).
    split; [by destruct pair | done].
Qed.

(** In an object, at most one entry carries a given name. *)
Lemma filter_named (o : JsObject.t string) (n : string) :
  JsObject.wf o →
  filter (λ pair, packageName pair = n) ((λ e, mkPair e.1 e.2) <$> o) =
    match JsObject.get n o with
    | Some s => [mkPair n s]
    | None => []
    end.
Proof.
  unfold JsObject.wf, JsObject.keys.
  induction o as [|[k v] o IH]; [done|].
  intros Hnd. rewrite fmap_cons in Hnd. apply NoDup_cons in Hnd as [Hk Hnd].
  rewrite fmap_cons, filter_cons. cbn [packageName fst snd JsObject.get].
  destruct (decide (k = n)) as [->|Hne].
  - rewrite IH by done.
    apply (get_None (V:=string)) in Hk. simpl in Hk. by rewrite Hk.
  - by rewrite IH.
Qed.

(** The last pair named [n] carries the winning specifier. *)
Lemma last_named (packageJson : PackageJson.t) (n : string) :
  wfPackageJson packageJson →
  last (packageVersion <$>
          filter (λ pair, packageName pair = n) (collectPairs packageJson))
  = winningSpecifier packageJson n.
Proof.
  intros [Hdeps Hdev]. unfold collectPairs, winningSpecifier.
  rewrite !pairsOf_field, filter_app, fmap_app, last_app, !filter_named by done.
  destruct (JsObject.get n (field (PackageJson.dependencies packageJson))); simpl;
    [done|].
  by destruct (JsObject.get n (field (PackageJson.devDependencies packageJson))).
Qed.

Lemma winningSpecifier_is_Some (packageJson : PackageJson.t) (pair : Pair) :
  pair ∈ collectPairs packageJson →
  is_Some (winningSpecifier packageJson (packageName pair)).
Proof.
  unfold collectPairs, winningSpecifier. intros Hin.
  destruct (JsObject.get _ (field (PackageJson.dependencies packageJson))) eqn:Hd;
    [done|].
  apply elem_of_app in Hin as [Hin|Hin]; apply elem_of_pairsOf in Hin.
  - destruct (JsObject.get _ (field (PackageJson.devDependencies packageJson)))
      eqn:Hg; [done|].
    exfalso. apply (get_None (V:=string)) in Hg. apply Hg.
    apply list_elem_of_fmap. by eexists (_, _).
  - exfalso. apply (get_None (V:=string)) in Hd. apply Hd.
    apply list_elem_of_fmap. by eexists (_, _).
Qed.

Lemma last_filter_keep {A : Type} (Q : A → Prop) `{!∀ x, Decision (Q x)}
    (l : list A) (x : A) :
  last l = Some x → Q x → last (filter Q l) = Some x.
Proof.
  intros [l' ->]%last_Some HQ.
  rewrite filter_app, filter_cons_True, filter_nil by done. apply last_snoc.
Qed.

End PairsFacts.

(** ** The temp package.json of one project *)
Section ProjectFacts.
Context `{Semver}.
Variable rushConfig : RushConfig.t.
Variable rushProject : RushConfigProject.t.



Lemma elem_of_specifiersOf (kind : Kind) (n s : string) (pairs : list Pair) :
  s ∈ specifiersOf rushConfig rushProject kind n pairs ↔
  mkPair n s ∈ pairs ∧ classify rushConfig rushProject (mkPair n s) = kind.
Proof.
  unfold specifiersOf. rewrite list_elem_of_fmap. split.
  - intros [[n' s'] [-> [[Hn Hk] Hin]%list_elem_of_filter]]. simpl in *. by subst.
  - intros [Hin Hk]. exists (mkPair n s). split; [done|].
    by apply list_elem_of_filter.
Qed.

(** When the last pair named [n] is classified [kind], its specifier is
    the last one recorded for that kind. *)
Lemma specifiersOf_last (kind : Kind) (n s : string) (pairs : list Pair) :
  last (packageVersion <$> filter (λ pair, packageName pair = n) pairs) = Some s →
  classify rushConfig rushProject (mkPair n s) = kind →
  last (specifiersOf rushConfig rushProject kind n pairs) = Some s.
Proof.
  intros Hlast Hkind. unfold specifiersOf.
  rewrite fmap_last in Hlast. apply fmap_Some in Hlast as [[n' s'] [Hlast Hs]].
  simpl in Hs. subst s'.
  pose proof (last_Some_elem_of _ _ Hlast) as [Hn _]%list_elem_of_filter.
  simpl in Hn. subst n'.
  transitivity (last (packageVersion <$>
    filter (λ pair, classify rushConfig rushProject pair = kind)
           (filter (λ pair, packageName pair = n) pairs))).
  - do 2 f_equal. rewrite list_filter_filter. apply list_filter_iff. tauto.
  - rewrite fmap_last. by rewrite (last_filter_keep _ _ _ Hlast Hkind).
Qed.

Lemma depOf_create (n : string) :
  depOf (createTempPackageJson rushConfig rushProject) n
  = last (specifiersOf rushConfig rushProject ExternalRegistry n
            (collectPairs (RushConfigProject.packageJson rushProject))).
Proof.
  unfold createTempPackageJson. rewrite depOf_fold.
  destruct (last _); [done|]. unfold initialTempPackageJson, depOf.
  by destruct (PackageJson.optionalDependencies _).
Qed.

Lemma rushOf_create (n : string) :
  rushOf (createTempPackageJson rushConfig rushProject) n
  = last (specifiersOf rushConfig rushProject LocalLink n
            (collectPairs (RushConfigProject.packageJson rushProject))).
Proof.
  unfold createTempPackageJson. rewrite rushOf_fold.
  destruct (last _); [done|]. unfold initialTempPackageJson, rushOf.
  by destruct (PackageJson.optionalDependencies _).
Qed.



(** The specifier of a pair that is not superseded is the winning one. *)
Lemma winningSpecifier_own (pair : Pair) :
  let packageJson := RushConfigProject.packageJson rushProject in
  wfPackageJson packageJson →
  pair ∈ collectPairs packageJson →
  pair ∈ pairsOf (PackageJson.dependencies packageJson)
  ∨ JsObject.get (packageName pair) (field (PackageJson.dependencies packageJson)) = None →
  winningSpecifier packageJson (packageName pair) = Some (packageVersion pair).
Proof.
  intros packageJson [Hdeps Hdev] Hin Hown. unfold winningSpecifier.
  destruct Hown as [Hd|Hd].
  - apply elem_of_pairsOf in Hd. by rewrite (elem_get _ _ _ Hdeps Hd).
  - fold packageJson. rewrite Hd.
    apply elem_of_app in Hin as [Hin|Hin]; apply elem_of_pairsOf in Hin.
    + by apply elem_get.
    + apply (elem_get _ _ _ Hdeps) in Hin. congruence.
Qed.

End ProjectFacts.

(** ** Classification of a pair *)
Section Classification.
Context `{Semver}.
Variable rushConfig : RushConfig.t.
Variable rushProject : RushConfigProject.t.




End Classification.

(** ** Optional fields of the temp package.json *)
Section OptionalFields.
Context `{Semver}.
Variable rushConfig : RushConfig.t.
Variable rushProject : RushConfigProject.t.

Lemma rushDependencies_initial :
  IPackageJson.rushDependencies (initialTempPackageJson rushProject) = None.
Proof.
  unfold initialTempPackageJson. by destruct (PackageJson.optionalDependencies _).
Qed.

Lemma jsonKeys_tempPackageJson (t : IPackageJson.t) :
  "rushDependencies" ∈ jsonKeys (jsonOfTempPackageJson t)
  ↔ is_Some (IPackageJson.rushDependencies t).
Proof.
  unfold jsonOfTempPackageJson, jsonKeys, optionalProperty.
  destruct (IPackageJson.optionalDependencies t), (IPackageJson.rushDependencies t);
    simpl; (split; [intros Hk | intros Hs]).
  all: try (by eexists).
  all: try (by destruct Hs).
  all: first [compute_done | exfalso; revert Hk; compute_done].
Qed.

(** C10.  When no pair of the project is locally linked, the saved
    package.json has no [rushDependencies] property at all.  The loop
    body creates the field exactly when it links a pair locally. *)
Theorem no_local_link_no_rushDependencies :
  let pairs := collectPairs (RushConfigProject.packageJson rushProject) in
  let tempPackageJson := createTempPackageJson rushConfig rushProject in
  Forall (λ pair, classify rushConfig rushProject pair = ExternalRegistry) pairs →
  IPackageJson.rushDependencies tempPackageJson = None
  ∧ ("rushDependencies" ∉ jsonKeys (jsonOfTempPackageJson tempPackageJson))
  ∧ (∀ t pair,
       IPackageJson.rushDependencies (addPair rushConfig rushProject t pair) = None
       ↔ IPackageJson.rushDependencies t = None
         ∧ classify rushConfig rushProject pair = ExternalRegistry).
Proof.
  intros pairs tempPackageJson Hall.
  assert (IPackageJson.rushDependencies tempPackageJson = None) as Hnone.
  { apply rushDependencies_fold_None. split; [apply rushDependencies_initial | done]. }
  split_and!; [done | |].
  - rewrite jsonKeys_tempPackageJson, Hnone. by intros [? ?].
  - intros t pair.
    pose proof (rushDependencies_fold_None rushConfig rushProject [pair] t) as Hf.
    by rewrite Forall_singleton in Hf.
Qed.

(** The field is there as soon as one pair is locally linked. *)
Lemma local_link_creates_rushDependencies (pair : Pair) :
  pair ∈ collectPairs (RushConfigProject.packageJson rushProject) →
  classify rushConfig rushProject pair = LocalLink →
  is_Some (IPackageJson.rushDependencies (createTempPackageJson rushConfig rushProject)).
Proof.
  intros Hin Hc. apply not_eq_None_Some.
  intros [_ Hall]%rushDependencies_fold_None.
  rewrite Forall_forall in Hall. specialize (Hall _ Hin). congruence.
Qed.

Lemma addPair_withOptionalDependencies (o : option (JsObject.t string))
    (t : IPackageJson.t) (pair : Pair) :
  addPair rushConfig (withOptionalDependencies o rushProject) t pair
  = addPair rushConfig rushProject t pair.
Proof. done. Qed.

Lemma fold_ignores_optionalDependencies (pairs : list Pair) (t t' : IPackageJson.t) :
  IPackageJson.dependencies t = IPackageJson.dependencies t' →
  IPackageJson.rushDependencies t = IPackageJson.rushDependencies t' →
  let r := fold_left (addPair rushConfig rushProject) pairs t in
  let r' := fold_left (addPair rushConfig rushProject) pairs t' in
  IPackageJson.dependencies r = IPackageJson.dependencies r'
  ∧ IPackageJson.rushDependencies r = IPackageJson.rushDependencies r'.
Proof.
  revert t t'. induction pairs as [|pair pairs IH]; intros t t' Hd Hr; simpl; [done|].
  apply IH; rewrite !addPair_classify; destruct (classify _ _ _);
    unfold addDependency, addRushDependency;
    cbn [IPackageJson.dependencies IPackageJson.rushDependencies];
    by rewrite ?Hd, ?Hr.
Qed.

(** C9, as the code has it.  The [optionalDependencies] field of the
    saved package.json is the source field itself: present exactly when
    the source package.json has the field, an empty object included.  It
    plays no part in the classification: neither [dependencies] nor
    [rushDependencies] depends on it. *)
Theorem optionalDependencies_copied :
  IPackageJson.optionalDependencies (createTempPackageJson rushConfig rushProject)
    = PackageJson.optionalDependencies (RushConfigProject.packageJson rushProject)
  ∧ ∀ o,
      let tempPackageJson := createTempPackageJson rushConfig rushProject in
      let tempPackageJson' :=
        createTempPackageJson rushConfig (withOptionalDependencies o rushProject) in
      IPackageJson.optionalDependencies tempPackageJson' = o
      ∧ IPackageJson.dependencies tempPackageJson'
        = IPackageJson.dependencies tempPackageJson
      ∧ IPackageJson.rushDependencies tempPackageJson'
        = IPackageJson.rushDependencies tempPackageJson.
Proof.
  assert (∀ p, IPackageJson.optionalDependencies (createTempPackageJson rushConfig p)
               = PackageJson.optionalDependencies (RushConfigProject.packageJson p))
    as Hcopy.
  { intros p. unfold createTempPackageJson. rewrite optionalDependencies_fold.
    unfold initialTempPackageJson. by destruct (PackageJson.optionalDependencies _). }
  split; [apply Hcopy|]. intros o tempPackageJson tempPackageJson'.
  split; [apply (Hcopy (withOptionalDependencies o rushProject))|].
  apply fold_ignores_optionalDependencies.
  - unfold initialTempPackageJson. simpl.
    by destruct o, (PackageJson.optionalDependencies _).
  - unfold initialTempPackageJson. simpl.
    by destruct o, (PackageJson.optionalDependencies _).
Qed.

End OptionalFields.

(** ** The loop over the pairs, throwing *)
Section Throwing.
Context `{Semver}.
Variable rushConfig : RushConfig.t.
Variable rushProject : RushConfigProject.t.

Lemma satisfiesCall_invalid_range (version range : string) :
  validRange range = false → satisfiesCall version range = Normal false.
Proof.
  intros Hr. unfold satisfiesCall. rewrite Hr. simpl.
  by rewrite satisfies_invalid_range.
Qed.

(** The body either throws the error of [pairError] or does what
    [addPair] does. *)
Lemma processPair_addPair (t : IPackageJson.t) (pair : Pair) :
  processPair rushConfig rushProject t pair =
    match pairError rushConfig rushProject pair with
    | Some e => Throw e
    | None => Normal (addPair rushConfig rushProject t pair)
    end.
Proof.
  unfold processPair, pairError, addPair.
  destruct (RushConfig.getProjectByName _ _) as [lp|]; [|done].
  destruct (negb _); [|done]. unfold satisfiesCall.
  destruct (_ && _ && _); [done|]. by destruct (satisfies _ _).
Qed.

Lemma pairError_invalid_range (pair : Pair) :
  validRange (packageVersion pair) = false →
  pairError rushConfig rushProject pair = None.
Proof.
  intros Hr. unfold pairError.
  destruct (RushConfig.getProjectByName _ _) as [lp|]; [|done].
  destruct (negb _); [|done]. by rewrite satisfiesCall_invalid_range.
Qed.

Lemma processPairs_fold (pairs : list Pair) (t : IPackageJson.t) :
  processPairs rushConfig rushProject pairs t =
    match head (omap (pairError rushConfig rushProject) pairs) with
    | Some e => Throw e
    | None => Normal (fold_left (addPair rushConfig rushProject) pairs t)
    end.
Proof.
  revert t. induction pairs as [|pair pairs IH]; intros t; [done|].
  cbn [processPairs fold_left]. rewrite processPair_addPair. simpl.
  destruct (pairError rushConfig rushProject pair); simpl; [done|]. apply IH.
Qed.

(** The loop over the pairs either throws [projectError] or yields
    [createTempPackageJson]. *)
Lemma buildTempPackageJson_create :
  buildTempPackageJson rushConfig rushProject =
    match projectError rushConfig rushProject with
    | Some e => Throw e
    | None => Normal (createTempPackageJson rushConfig rushProject)
    end.
Proof. apply processPairs_fold. Qed.

Lemma pairError_None (pair : Pair) :
  pairError rushConfig rushProject pair = None
  ↔ ∀ localProject,
      RushConfig.getProjectByName rushConfig (packageName pair) = Some localProject →
      packageName pair ∉ RushConfigProject.cyclicDependencyProjects rushProject →
      validRange (packageVersion pair) = true →
      PackageJson.version (RushConfigProject.packageJson localProject) ≠ EmptyString →
      valid (PackageJson.version (RushConfigProject.packageJson localProject)) = true.
Proof.
  unfold pairError, satisfiesCall.
  destruct (RushConfig.getProjectByName rushConfig (packageName pair)) as [lp|];
    [|by split].
  case_bool_decide as Hcyc; simpl; [by split|].
  destruct (validRange (packageVersion pair)); simpl; [|by split].
  case_bool_decide as Hv; simpl.
  - split; [|done]. intros _ lp' [= <-]. done.
  - destruct (valid _) eqn:Hvalid; simpl.
    + split; [|done]. by intros _ lp' [= <-].
    + split; [done|]. intros Hall.
      specialize (Hall lp eq_refl Hcyc eq_refl Hv). congruence.
Qed.

(** The loop over the pairs of a project throws nothing exactly when
    every lookup that reaches [semver.satisfies] with a valid range finds a
    project whose version is empty or valid. *)
Lemma projectError_None :
  projectError rushConfig rushProject = None
  ↔ ∀ pair localProject,
      pair ∈ collectPairs (RushConfigProject.packageJson rushProject) →
      RushConfig.getProjectByName rushConfig (packageName pair) = Some localProject →
      packageName pair ∉ RushConfigProject.cyclicDependencyProjects rushProject →
      validRange (packageVersion pair) = true →
      PackageJson.version (RushConfigProject.packageJson localProject) ≠ EmptyString →
      valid (PackageJson.version (RushConfigProject.packageJson localProject)) = true.
Proof.
  unfold projectError.
  induction (collectPairs (RushConfigProject.packageJson rushProject))
    as [|pair pairs IH]; simpl.
  - split; [|done]. intros _ pair lp Hin. by apply elem_of_nil in Hin.
  - destruct (pairError rushConfig rushProject pair) eqn:He; simpl.
    + split; [done|]. intros Hall.
      assert (pairError rushConfig rushProject pair = None) as Hnone; [|congruence].
      apply pairError_None. intros lp. apply Hall, list_elem_of_here.
    + rewrite IH. pose proof (proj1 (pairError_None pair) He) as He'. split.
      * intros Hall pair' lp' [->|Hin]%elem_of_cons; [apply He' | by apply Hall].
      * intros Hall pair' lp' Hin. apply Hall. by apply list_elem_of_further.
Qed.

Lemma processPairs_app (before rest : list Pair) (t : IPackageJson.t) :
  processPairs rushConfig rushProject (before ++ rest) t =
    match processPairs rushConfig rushProject before t with
    | Normal t1 => processPairs rushConfig rushProject rest t1
    | Throw e => Throw e
    end.
Proof.
  revert t. induction before as [|pair before IH]; intros t; [done|].
  cbn [app processPairs].
  destruct (processPair rushConfig rushProject t pair); [apply IH | done].
Qed.

End Throwing.

(** ** The whole run *)
Section Run.
Context `{Semver} `{Folders}.
Variable rushConfig : RushConfig.t.

Lemma writePackageJson_fresh (n : string) (data : IPackageJson.t)
    (entries : list (string * option IPackageJson.t)) :
  folderKey n ∉ folderKey <$> entries.*1 →
  writePackageJson n data (entries ++ [(n, None)]) = entries ++ [(n, Some data)].
Proof.
  intros Hn. unfold writePackageJson. rewrite fmap_app. f_equal.
  - induction entries as [|[k v] entries IH]; [done|].
    rewrite !fmap_cons in Hn. apply not_elem_of_cons in Hn as [Hk Hn].
    rewrite fmap_cons, IH by done. simpl in *. by rewrite decide_False.
  - simpl. by rewrite decide_True.
Qed.

Lemma world_eta (w : World) (entries : list (string * option IPackageJson.t)) :
  tempModules (fs w) = Some entries →
  mkWorld (setTempModules (Some entries) (fs w)) (console w) (EOL w) = w.
Proof. destruct w as [[] ? ?]. simpl. by intros ->. Qed.

Lemma createTempProject_taken (c : PackageJson.t) (p : RushConfigProject.t)
    (w : World) (entries : list (string * option IPackageJson.t)) :
  tempModules (fs w) = Some entries →
  folderKey (RushConfigProject.tempProjectName p) ∈ folderKey <$> entries.*1 →
  createTempProject rushConfig c p w = (Throw "EEXIST", w).
Proof.
  intros Hw Hin. unfold createTempProject, mkdirSync, bind, getFs.
  by rewrite Hw, bool_decide_eq_true_2.
Qed.

Lemma createTempProject_error (c : PackageJson.t) (p : RushConfigProject.t)
    (w : World) (entries : list (string * option IPackageJson.t)) (e : string) :
  let n := RushConfigProject.tempProjectName p in
  tempModules (fs w) = Some entries →
  folderKey n ∉ folderKey <$> entries.*1 →
  projectError rushConfig p = Some e →
  createTempProject rushConfig c p w =
    (Throw e,
     mkWorld (setTempModules (Some (entries ++ [(n, None)])) (fs w))
             (console w) (EOL w)).
Proof.
  intros n Hw Hn He.
  unfold createTempProject, mkdirSync, bind, getFs, modifyFs, liftCompletion.
  fold n. rewrite Hw, bool_decide_eq_false_2 by done. simpl.
  by rewrite buildTempPackageJson_create, He.
Qed.

Lemma createTempProject_saved (c : PackageJson.t) (p : RushConfigProject.t)
    (w : World) (entries : list (string * option IPackageJson.t)) :
  let n := RushConfigProject.tempProjectName p in
  tempModules (fs w) = Some entries →
  folderKey n ∉ folderKey <$> entries.*1 →
  projectError rushConfig p = None →
  createTempProject rushConfig c p w =
    (Normal (setCommonDependency n ("file:./temp_modules/" ++ n)%string c),
     mkWorld (setTempModules
                (Some (entries ++ [(n, Some (createTempPackageJson rushConfig p))]))
                (fs w))
             (console w) (EOL w)).
Proof.
  intros n Hw Hn He.
  unfold createTempProject, mkdirSync, saveTempPackageJson, bind, getFs, modifyFs,
    liftCompletion, ret.
  fold n. rewrite Hw, bool_decide_eq_false_2 by done. simpl.
  rewrite buildTempPackageJson_create, He. simpl.
  rewrite bool_decide_eq_true_2.
  - by rewrite writePackageJson_fresh.
  - rewrite !fmap_app. apply elem_of_app. right. simpl. apply list_elem_of_here.
Qed.

(** The loop over the projects, in one equation. *)
Lemma forOf_createTempProject (projects : list RushConfigProject.t)
    (c : PackageJson.t) (w : World)
    (entries : list (string * option IPackageJson.t)) :
  tempModules (fs w) = Some entries →
  forOf projects (createTempProject rushConfig) c w =
    (match (tempProjectsLoop rushConfig (folderKey <$> entries.*1) projects).2 with
     | None =>
         Normal (fold_left
                   (λ c p, setCommonDependency
                             (RushConfigProject.tempProjectName p)
                             ("file:./temp_modules/"
                              ++ RushConfigProject.tempProjectName p)%string c)
                   projects c)
     | Some e => Throw e
     end,
     mkWorld (setTempModules
                (Some (entries
                       ++ (tempProjectsLoop rushConfig (folderKey <$> entries.*1)
                                            projects).1))
                (fs w))
             (console w) (EOL w)).
Proof.
  revert c w entries.
  induction projects as [|p projects IH]; intros c w entries Hw.
  - simpl. unfold ret. by rewrite app_nil_r, world_eta.
  - cbn [forOf tempProjectsLoop]. unfold bind at 1.
    destruct (decide (folderKey (RushConfigProject.tempProjectName p)
                        ∈ folderKey <$> entries.*1)) as [Hin|Hin].
    + rewrite (createTempProject_taken _ _ _ _ Hw Hin).
      rewrite bool_decide_eq_true_2 by done. simpl.
      by rewrite app_nil_r, world_eta.
    + rewrite bool_decide_eq_false_2 by done.
      destruct (projectError rushConfig p) as [e|] eqn:He.
      * by rewrite (createTempProject_error _ _ _ _ _ Hw Hin He).
      * rewrite (createTempProject_saved _ _ _ _ Hw Hin He).
        erewrite IH by reflexivity. simpl.
        rewrite !fmap_app. simpl. by rewrite <- app_assoc.
Qed.

(** The run, in one equation. *)
Lemma onExecute_run (lazy : bool) (w : World) :
  let projects := RushConfig.projects rushConfig in
  let loop := tempProjectsLoop rushConfig [] projects in
  onExecute rushConfig lazy w =
    (match loop.2 with None => Normal () | Some e => Throw e end,
     mkWorld
       (mkFileSystem
          (cleanedNodeModules lazy (fs w))
          (Some loop.1)
          false
          (match loop.2 with
           | None => Some (commonPackageJsonOf projects)
           | Some _ => commonPackageJsonFile (fs w)
           end))
       (console w
        ++ consoleOutput lazy (fs w) (EOL w)
             (match loop.2 with None => true | Some _ => false end))
       (EOL w)).
Proof.
  intros projects loop. destruct w as [[nm tm sw cf] con eol].
  unfold onExecute, consoleOutput, cleanedNodeModules.
  destruct lazy, nm, tm, sw;
    unfold bind, getEOL, getFs, log, when, modifyFs, ret, createTempModulesFolder;
    simpl;
    (erewrite forOf_createTempProject by reflexivity);
    fold projects; simpl; fold loop; unfold commonPackageJsonOf;
    destruct (loop.2); simpl; rewrite <- ?app_assoc; reflexivity.
Qed.

Lemma allFresh_NoDup (seen : list string) (projects : list RushConfigProject.t) :
  NoDup seen →
  allFresh seen projects = true ↔ NoDup (seen ++ folderKeys projects).
Proof.
  unfold folderKeys.
  revert seen. induction projects as [|p projects IH]; intros seen Hseen.
  - simpl. by rewrite app_nil_r.
  - cbn [allFresh]. rewrite fmap_cons, andb_true_iff, negb_true_iff.
    destruct (decide (folderKey (RushConfigProject.tempProjectName p) ∈ seen))
      as [Hin|Hin].
    + rewrite bool_decide_eq_true_2 by done. split; [by intros [? _]|].
      intros Hnd. apply NoDup_app in Hnd as (_ & Hdis & _). exfalso.
      apply (Hdis _ Hin). apply list_elem_of_here.
    + rewrite bool_decide_eq_false_2 by done.
      assert (NoDup (seen ++ [folderKey (RushConfigProject.tempProjectName p)]))
        as Hseen'.
      { apply NoDup_app. split_and!; [done | | apply NoDup_singleton].
        by intros x Hx ->%list_elem_of_singleton. }
      specialize (IH _ Hseen'). rewrite <- app_assoc in IH. simpl in IH. tauto.
Qed.

Lemma allFresh_nil_NoDup (projects : list RushConfigProject.t) :
  allFresh [] projects = true ↔ NoDup (folderKeys projects).
Proof. apply (allFresh_NoDup [] projects (NoDup_nil_2 (A:=string))). Qed.

(** The loop runs through exactly when every folder is new and no lookup
    throws; it then leaves every project's package.json. *)
Lemma tempProjectsLoop_None (seen : list string) (projects : list RushConfigProject.t) :
  (tempProjectsLoop rushConfig seen projects).2 = None
  ↔ allFresh seen projects = true
    ∧ Forall (λ p, projectError rushConfig p = None) projects.
Proof.
  revert seen. induction projects as [|p projects IH]; intros seen.
  - simpl. split; [by intros _; split | done].
  - cbn [tempProjectsLoop allFresh]. rewrite Forall_cons.
    case_bool_decide as Hin; simpl.
    + split; [done | by intros [? _]].
    + destruct (projectError rushConfig p) as [e|]; simpl.
      * split; [done | by intros [_ [? _]]].
      * rewrite IH. tauto.
Qed.

Lemma tempProjectsLoop_app (seen : list string)
    (before rest : list RushConfigProject.t) :
  allFresh seen before = true →
  Forall (λ p, projectError rushConfig p = None) before →
  tempProjectsLoop rushConfig seen (before ++ rest) =
    (savedTempProjects rushConfig before
     ++ (tempProjectsLoop rushConfig (seen ++ folderKeys before) rest).1,
     (tempProjectsLoop rushConfig (seen ++ folderKeys before) rest).2).
Proof.
  unfold folderKeys, savedTempProjects.
  revert seen. induction before as [|p before IH]; intros seen Hfresh Herr.
  - simpl. rewrite app_nil_r. by destruct (tempProjectsLoop _ _ _).
  - cbn [allFresh] in Hfresh. apply andb_true_iff in Hfresh as [Hp Hfresh].
    apply negb_true_iff in Hp. apply Forall_cons in Herr as [He Herr].
    cbn [app tempProjectsLoop]. rewrite Hp, He, IH by done. simpl.
    by rewrite <- app_assoc.
Qed.

Lemma tempProjectsLoop_complete (projects : list RushConfigProject.t) :
  (tempProjectsLoop rushConfig [] projects).2 = None →
  (tempProjectsLoop rushConfig [] projects).1 = savedTempProjects rushConfig projects.
Proof.
  intros [Hfresh Herr]%tempProjectsLoop_None.
  pose proof (tempProjectsLoop_app [] projects [] Hfresh Herr) as Happ.
  rewrite app_nil_r in Happ. rewrite Happ. simpl. by rewrite app_nil_r.
Qed.

Lemma tempPackageJsonFiles_saved (w : World) (projects : list RushConfigProject.t)
    (others : list (string * option IPackageJson.t)) :
  tempModules (fs w) = Some (savedTempProjects rushConfig projects ++ others) →
  Forall (λ e, e.2 = None) others →
  tempPackageJsonFiles w =
    (λ p, (RushConfigProject.tempProjectName p, createTempPackageJson rushConfig p))
      <$> projects.
Proof.
  unfold tempPackageJsonFiles. intros -> Hothers. unfold savedTempProjects.
  induction projects as [|p projects IH].
  - simpl. induction Hothers as [|[n o] others Ho _ IH]; [done|].
    simpl in *. by rewrite Ho.
  - rewrite !fmap_cons. simpl. f_equal. apply IH.
Qed.

End Run.


(** ** What a run reports and what it depends on *)
Section Reports.
Context `{Semver} `{Folders}.
Variable rushConfig : RushConfig.t.

(** C3, as the code has it.  The action has no collision check of its
    own.  With temp project names that are path segments, the run
    completes exactly when the temp project folders are pairwise distinct
    and no lookup makes [semver.satisfies] throw: a dependency named like
    the project's own temp project plays no part in it.  A run that
    completes has saved every project's package.json and
    common/package.json.  When a project asks for the folder of an earlier
    one, all projects ahead of it having been saved, the run stops with the
    error of creating the folder a second time: common/package.json is not
    written, and the package.json files of the projects ahead stay
    saved. *)
Theorem no_namespace_collision_check (lazy : bool) (w : World) :
  Forall (λ p, isPathSegment (RushConfigProject.tempProjectName p) = true)
         (RushConfig.projects rushConfig) →
  ((onExecute rushConfig lazy w).1 = Normal ()
   ↔ NoDup (folderKeys (RushConfig.projects rushConfig))
     ∧ Forall (λ p, projectError rushConfig p = None) (RushConfig.projects rushConfig))
  ∧ ((onExecute rushConfig lazy w).1 = Normal () →
     tempPackageJsonFiles (onExecute rushConfig lazy w).2
     = ((λ p, (RushConfigProject.tempProjectName p, createTempPackageJson rushConfig p))
          <$> RushConfig.projects rushConfig)
     ∧ commonPackageJsonFile (fs (onExecute rushConfig lazy w).2)
       = Some (commonPackageJsonOf (RushConfig.projects rushConfig)))
  ∧ (∀ before p rest,
       RushConfig.projects rushConfig = before ++ p :: rest →
       NoDup (folderKeys before) →
       Forall (λ p, projectError rushConfig p = None) before →
       folderKey (RushConfigProject.tempProjectName p) ∈ folderKeys before →
       (onExecute rushConfig lazy w).1 = Throw "EEXIST"
       ∧ before ≠ []
       ∧ tempPackageJsonFiles (onExecute rushConfig lazy w).2
         = ((λ p, (RushConfigProject.tempProjectName p,
                   createTempPackageJson rushConfig p)) <$> before)
       ∧ commonPackageJsonFile (fs (onExecute rushConfig lazy w).2)
         = commonPackageJsonFile (fs w)).
Proof.
  intros _. rewrite onExecute_run. cbn [fst snd fs commonPackageJsonFile].
  split_and!.
  - rewrite <- allFresh_nil_NoDup, <- tempProjectsLoop_None.
    by destruct (tempProjectsLoop _ _ _).2.
  - destruct (tempProjectsLoop _ _ _).2 eqn:Hloop; [done|]. intros _.
    split; [|done].
    apply (tempPackageJsonFiles_saved _ _ _ []); [|done].
    simpl. by rewrite app_nil_r, tempProjectsLoop_complete.
  - intros before p rest -> Hnd Herr Hp.
    apply allFresh_nil_NoDup in Hnd.
    rewrite (tempProjectsLoop_app _ [] before (p :: rest) Hnd Herr).
    cbn [app tempProjectsLoop fst snd]. rewrite bool_decide_eq_true_2 by done.
    cbn [fst snd]. split_and!; [done | | | done].
    + intros ->. by apply elem_of_nil in Hp.
    + by apply (tempPackageJsonFiles_saved _ _ _ []).
Qed.

(** C4, as the code has it.  A pair whose specifier is not a valid
    range is a regular dependency: [semver.satisfies] answers [false] for
    it whatever the version, so the loop body stores the pair in
    [dependencies], throws nothing and goes on with the next pair; the
    saved package.json keeps the specifier unless a same-name pair
    supersedes it.  Nothing is reported: up to the writing of
    common/package.json the lines a run prints are its fixed progress
    lines, which tell no more than whether the loop over the projects
    completed. *)
Theorem malformed_specifier_is_regular_dependency
    (rushProject : RushConfigProject.t) (pair : Pair) :
  validRange (packageVersion pair) = false →
  (∀ version, satisfiesCall version (packageVersion pair) = Normal false)
  ∧ classify rushConfig rushProject pair = ExternalRegistry
  ∧ (∀ t, processPair rushConfig rushProject t pair = Normal (addDependency t pair)
          ∧ depOf (addDependency t pair) (packageName pair) = Some (packageVersion pair)
          ∧ IPackageJson.rushDependencies (addDependency t pair)
            = IPackageJson.rushDependencies t)
  ∧ (∀ before rest t,
       processPairs rushConfig rushProject (before ++ pair :: rest) t =
         match processPairs rushConfig rushProject before t with
         | Normal t1 => processPairs rushConfig rushProject rest (addDependency t1 pair)
         | Throw e => Throw e
         end)
  ∧ (wfPackageJson (RushConfigProject.packageJson rushProject) →
     pair ∈ collectPairs (RushConfigProject.packageJson rushProject) →
     pair ∈ pairsOf (PackageJson.dependencies (RushConfigProject.packageJson rushProject))
     ∨ JsObject.get (packageName pair)
         (field (PackageJson.dependencies (RushConfigProject.packageJson rushProject)))
       = None →
     depOf (createTempPackageJson rushConfig rushProject) (packageName pair)
     = Some (packageVersion pair))
  ∧ (∀ lazy w,
       console (onExecute rushConfig lazy w).2
       = console w
         ++ consoleOutput lazy (fs w) (EOL w)
              (completed (onExecute rushConfig lazy w).1)).
Proof.
  intros Hbad.
  assert (Hc : classify rushConfig rushProject pair = ExternalRegistry).
  { unfold classify. destruct (RushConfig.getProjectByName _ _); [|done].
    destruct (negb _); [|done]. by rewrite satisfies_invalid_range. }
  assert (Hp : ∀ t, processPair rushConfig rushProject t pair
                    = Normal (addDependency t pair)).
  { intros t. rewrite processPair_addPair, pairError_invalid_range by done.
    by rewrite addPair_classify, Hc. }
  split_and!; [by intros; apply satisfiesCall_invalid_range | done | | | |].
  - intros t. split_and!; [done | | done].
    rewrite depOf_addDependency. by rewrite decide_True.
  - intros before rest t. rewrite processPairs_app.
    destruct (processPairs rushConfig rushProject before t) as [t1|e]; [|done].
    cbn [processPairs]. by rewrite Hp.
  - intros Hwf Hin Hown. rewrite depOf_create.
    apply specifiersOf_last; [|by destruct pair].
    rewrite last_named by done. by apply winningSpecifier_own.
  - intros lazy w. rewrite onExecute_run. cbn [fst snd console].
    by destruct (tempProjectsLoop _ _ _).2.
Qed.

(** C8.  What a run saves is a function of the Rush configuration
    alone: whatever the common folder held before, whether [--lazy] was
    given, and whatever was printed before, two runs complete the same
    way and leave the same temp package.json files, with the same
    properties in the same order, and the same common/package.json; any
    serializer applied to the documents therefore yields the same
    text. *)
Theorem onExecute_deterministic (lazy1 lazy2 : bool) (w1 w2 : World) :
  (onExecute rushConfig lazy1 w1).1 = (onExecute rushConfig lazy2 w2).1
  ∧ tempModules (fs (onExecute rushConfig lazy1 w1).2)
    = tempModules (fs (onExecute rushConfig lazy2 w2).2)
  ∧ writtenDocuments (onExecute rushConfig lazy1 w1)
    = writtenDocuments (onExecute rushConfig lazy2 w2)
  ∧ ∀ stringify : Json → string,
      prod_map id stringify <$> writtenDocuments (onExecute rushConfig lazy1 w1)
      = prod_map id stringify <$> writtenDocuments (onExecute rushConfig lazy2 w2).
Proof.
  assert (writtenDocuments (onExecute rushConfig lazy1 w1)
          = writtenDocuments (onExecute rushConfig lazy2 w2)) as Hdocs.
  { rewrite !onExecute_run. unfold writtenDocuments, tempPackageJsonFiles.
    cbn [fst snd fs tempModules commonPackageJsonFile].
    by destruct (tempProjectsLoop _ _ _).2. }
  split_and!; [by rewrite !onExecute_run | by rewrite !onExecute_run | done |].
  intros stringify. by rewrite Hdocs.
Qed.

End Reports.

(** ** The sample workspace, run *)

(** C1.  [web] declares [utils] as a devDependency in a range the local
    project satisfies and as a regular dependency in a range it does not.
    The regular dependency is meant to take precedence, yet the saved
    package.json keeps the devDependency specifier: it sits in
    [rushDependencies] while the regular one sits in [dependencies]. *)
Theorem devDependency_specifier_survives :
  JsObject.get "utils"
    (field (PackageJson.devDependencies (RushConfigProject.packageJson Sample.web)))
    = Some "^1.0.0"
  ∧ JsObject.get "utils"
      (field (PackageJson.dependencies (RushConfigProject.packageJson Sample.web)))
    = Some "^2.0.0"
  ∧ createTempPackageJson Sample.workspace Sample.web
    = IPackageJson.mk "rush-web" "0.0.0" true
        [("utils", "^2.0.0")] None (Some [("utils", "^1.0.0")]).
Proof. split_and!; vm_compute; reflexivity. Qed.

(** C2.  In the same package.json the name [utils] occurs in both maps:
    once as a local link and once as a regular dependency. *)
Theorem name_in_both_maps :
  packageName <$> collectPairs (RushConfigProject.packageJson Sample.web)
    = ["utils"; "utils"]
  ∧ rushOf (createTempPackageJson Sample.workspace Sample.web) "utils" = Some "^1.0.0"
  ∧ depOf (createTempPackageJson Sample.workspace Sample.web) "utils" = Some "^2.0.0".
Proof. split_and!; vm_compute; reflexivity. Qed.

(** A project that depends on a package named like its own temp project
    is processed like any other; and with two projects sharing a temp
    project name the first package.json is already saved when the run
    stops. *)
Lemma namespace_collision_counterexample :
  (RushConfigProject.tempProjectName Sample.selfish
     ∈ packageName <$> collectPairs (RushConfigProject.packageJson Sample.selfish)
   ∧ (onExecute Sample.selfishWorkspace false Sample.emptyWorld).1 = Normal ()
   ∧ tempPackageJsonFiles (onExecute Sample.selfishWorkspace false Sample.emptyWorld).2
     = [("rush-selfish",
         IPackageJson.mk "rush-selfish" "0.0.0" true
                         [("rush-selfish", "1.0.0")] None None)])
  ∧ (RushConfigProject.tempProjectName Sample.sharedA
     = RushConfigProject.tempProjectName Sample.sharedB
     ∧ (onExecute Sample.sharedWorkspace false Sample.emptyWorld).1 = Throw "EEXIST"
     ∧ tempPackageJsonFiles (onExecute Sample.sharedWorkspace false Sample.emptyWorld).2
       = [("ws-shared", IPackageJson.mk "ws-shared" "0.0.0" true [] None None)]).
Proof. split_and!; try compute_done; vm_compute; reflexivity. Qed.

(** [docs] depends on the Rush project [utils] with a specifier that is
    not a range: the lookup finds [utils], [semver.satisfies] is asked and
    answers [false], the pair is saved as a regular dependency, and the run
    completes and prints its four usual lines, none of them about the
    specifier. *)
Lemma malformed_specifier_counterexample :
  validRange "latest" = false
  ∧ mkPair "utils" "latest"
      ∈ collectPairs (RushConfigProject.packageJson MixedSample.docs)
  ∧ RushConfig.getProjectByName MixedSample.docsWorkspace "utils" = Some Sample.utils
  ∧ ("utils" ∉ RushConfigProject.cyclicDependencyProjects MixedSample.docs)
  ∧ satisfiesCall "1.2.0" "latest" = Normal false
  ∧ (onExecute MixedSample.docsWorkspace false Sample.emptyWorld).1 = Normal ()
  ∧ tempPackageJsonFiles (onExecute MixedSample.docsWorkspace false Sample.emptyWorld).2
    = [("rush-utils", IPackageJson.mk "rush-utils" "0.0.0" true [] None None);
       ("rush-docs",
        IPackageJson.mk "rush-docs" "0.0.0" true [("utils", "latest")] None None)]
  ∧ console (onExecute MixedSample.docsWorkspace false Sample.emptyWorld).2
    = [("Starting " ++ quote ++ "rush generate" ++ quote
        ++ EOL Sample.emptyWorld)%string;
       "Creating a clean common/temp_modules folder";
       "Creating temp projects...";
       "Writing common/package.json"].
Proof. split_and!; try compute_done; vm_compute; reflexivity. Qed.

(** [app] has an [optionalDependencies] object without any entry; the
    saved package.json has the field all the same. *)
Lemma empty_optionalDependencies_counterexample :
  PackageJson.optionalDependencies (RushConfigProject.packageJson Sample.app) = Some []
  ∧ IPackageJson.optionalDependencies (createTempPackageJson Sample.workspace Sample.app)
    = Some []
  ∧ "optionalDependencies"
      ∈ jsonKeys (jsonOfTempPackageJson
                    (createTempPackageJson Sample.workspace Sample.app)).
Proof. split_and!; try compute_done; vm_compute; reflexivity. Qed.




Lemma no_local_link_witness :
  IPackageJson.rushDependencies (createTempPackageJson Sample.workspace Sample.core) = None
  ∧ "rushDependencies"
      ∉ jsonKeys (jsonOfTempPackageJson
                    (createTempPackageJson Sample.workspace Sample.core)).
Proof.
  destruct (no_local_link_no_rushDependencies Sample.workspace Sample.core)
    as (Hn & Hk & _).
  - compute_done.
  - split; [exact Hn | exact Hk].
Defined.

Lemma malformed_specifier_witness :
  satisfiesCall "1.2.0" "latest" = Normal false
  ∧ classify MixedSample.docsWorkspace MixedSample.docs (mkPair "utils" "latest")
    = ExternalRegistry
  ∧ processPair MixedSample.docsWorkspace MixedSample.docs
                (initialTempPackageJson MixedSample.docs) (mkPair "utils" "latest")
    = Normal (IPackageJson.mk "rush-docs" "0.0.0" true [("utils", "latest")] None None).
Proof.
  destruct (malformed_specifier_is_regular_dependency
              MixedSample.docsWorkspace MixedSample.docs (mkPair "utils" "latest"))
    as (Hcall & Hc & Hbody & _).
  - reflexivity.
  - split_and!; [apply Hcall | exact Hc |].
    destruct (Hbody (initialTempPackageJson MixedSample.docs)) as [Hp _].
    rewrite Hp. vm_compute. reflexivity.
Defined.

Lemma no_namespace_collision_witness :
  (onExecute Sample.selfishWorkspace false Sample.emptyWorld).1 = Normal ()
  ∧ commonPackageJsonFile (fs (onExecute Sample.selfishWorkspace false Sample.emptyWorld).2)
    = Some (commonPackageJsonOf [Sample.selfish]).
Proof.
  destruct (no_namespace_collision_check Sample.selfishWorkspace false Sample.emptyWorld)
    as (Hiff & Hsaved & _).
  - compute_done.
  - assert ((onExecute Sample.selfishWorkspace false Sample.emptyWorld).1 = Normal ())
      as Hrun.
    { apply Hiff. split; compute_done. }
    split; [exact Hrun | apply (Hsaved Hrun)].
Defined.

(** A lookup that meets a Rush project without a valid version stops the
    run with the error of [semver], right after the folder of the project
    at hand was created: that folder is left without a package.json, and
    common/package.json is not written. *)
Example invalid_version_stops_run :
  onExecute MixedSample.brokenWorkspace false Sample.emptyWorld
  = (Throw "TypeError: Invalid Version: 1.0",
     mkWorld
       (mkFileSystem None
          (Some [("rush-broken",
                  Some (IPackageJson.mk "rush-broken" "0.0.0" true [] None None));
                 ("rush-consumer", None)])
          false None)
       [("Starting " ++ quote ++ "rush generate" ++ quote
         ++ EOL Sample.emptyWorld)%string;
        "Creating a clean common/temp_modules folder";
        "Creating temp projects..."]
       (EOL Sample.emptyWorld)).
Proof. vm_compute. reflexivity. Qed.

(** * Further properties of the loop over the pairs *)
Section RecordedEntries.
Context `{Semver}.
Variable rushConfig : RushConfig.t.
Variable rushProject : RushConfigProject.t.

Lemma classify_LocalLink (pair : Pair) :
  classify rushConfig rushProject pair = LocalLink
  ↔ ∃ localProject,
      RushConfig.getProjectByName rushConfig (packageName pair) = Some localProject
      ∧ (packageName pair ∉ RushConfigProject.cyclicDependencyProjects rushProject)
      ∧ satisfies (PackageJson.version (RushConfigProject.packageJson localProject))
                  (packageVersion pair) = true.
Proof.
  unfold classify.
  destruct (RushConfig.getProjectByName rushConfig (packageName pair)) as [lp|].
  - case_bool_decide as Hc; simpl.
    + split; [done|]. by intros (? & _ & ? & _).
    + destruct (satisfies _ _) eqn:Hs.
      * split; [|done]. intros _. by exists lp.
      * split; [done|]. intros (lp' & [= <-] & _ & Hs'). congruence.
  - split; [done|]. by intros (? & ? & _).
Qed.

(** A local link in the saved package.json is always justified: the pair
    is declared in devDependencies or dependencies, a Rush project of that
    name exists, the name is not exempted, and the project's version
    satisfies the recorded specifier. *)
Theorem local_link_is_justified (n s : string) :
  rushOf (createTempPackageJson rushConfig rushProject) n = Some s →
  mkPair n s ∈ collectPairs (RushConfigProject.packageJson rushProject)
  ∧ ∃ localProject,
      RushConfig.getProjectByName rushConfig n = Some localProject
      ∧ (n ∉ RushConfigProject.cyclicDependencyProjects rushProject)
      ∧ satisfies (PackageJson.version (RushConfigProject.packageJson localProject)) s
        = true.
Proof.
  rewrite rushOf_create.
  intros [Hin Hc]%last_Some_elem_of%elem_of_specifiersOf.
  split; [done|]. by apply classify_LocalLink in Hc.
Qed.

(** A regular dependency in the saved package.json is always a declared
    pair that the loop could not link: no Rush project has that name, or
    the name is exempted, or the project's version does not satisfy the
    recorded specifier. *)
Theorem regular_dependency_is_declared (n s : string) :
  depOf (createTempPackageJson rushConfig rushProject) n = Some s →
  mkPair n s ∈ collectPairs (RushConfigProject.packageJson rushProject)
  ∧ (RushConfig.getProjectByName rushConfig n = None
     ∨ n ∈ RushConfigProject.cyclicDependencyProjects rushProject
     ∨ ∃ localProject,
         RushConfig.getProjectByName rushConfig n = Some localProject
         ∧ satisfies (PackageJson.version (RushConfigProject.packageJson localProject)) s
           = false).
Proof.
  rewrite depOf_create.
  intros [Hin Hc]%last_Some_elem_of%elem_of_specifiersOf.
  split; [done|]. unfold classify in Hc. simpl in Hc.
  destruct (RushConfig.getProjectByName rushConfig n) as [lp|]; [|by left].
  right. case_bool_decide as Hcyc; [by left|]. right. exists lp. split; [done|].
  simpl in Hc. by destruct (satisfies _ _).
Qed.



Lemma wf_fold (pairs : list Pair) (t : IPackageJson.t) :
  JsObject.wf (IPackageJson.dependencies t) →
  JsObject.wf (field (IPackageJson.rushDependencies t)) →
  JsObject.wf (IPackageJson.dependencies
                 (fold_left (addPair rushConfig rushProject) pairs t))
  ∧ JsObject.wf (field (IPackageJson.rushDependencies
                          (fold_left (addPair rushConfig rushProject) pairs t))).
Proof.
  revert t. induction pairs as [|pair pairs IH]; intros t Hd Hr; simpl; [done|].
  apply IH; rewrite addPair_classify; destruct (classify _ _ _); simpl;
    try done; by apply wf_set.
Qed.

(** Neither map of the saved package.json holds a name twice. *)
Theorem recorded_names_are_distinct :
  JsObject.wf (IPackageJson.dependencies (createTempPackageJson rushConfig rushProject))
  ∧ JsObject.wf (field (IPackageJson.rushDependencies
                          (createTempPackageJson rushConfig rushProject))).
Proof.
  apply wf_fold; unfold initialTempPackageJson;
    destruct (PackageJson.optionalDependencies _); apply NoDup_nil_2.
Qed.




End RecordedEntries.

(** * The order of the recorded names *)
Section KeyOrder.
Context `{Semver}.
Variable rushConfig : RushConfig.t.
Variable rushProject : RushConfigProject.t.





End KeyOrder.

(** * What a temp package.json depends on *)
Section OtherProjects.
Context `{Semver}.

Lemma find_nameAndVersion (n : string) (l1 l2 : list RushConfigProject.t) :
  nameAndVersion <$> l1 = nameAndVersion <$> l2 →
  (λ p, PackageJson.version (RushConfigProject.packageJson p.2))
    <$> list_find (λ p, RushConfigProject.packageName p = n) l1
  = (λ p, PackageJson.version (RushConfigProject.packageJson p.2))
      <$> list_find (λ p, RushConfigProject.packageName p = n) l2.
Proof.
  revert l2. induction l1 as [|p1 l1 IH]; intros [|p2 l2] Heq; try done.
  rewrite !fmap_cons in Heq. apply (inj2 cons) in Heq as [Hhead Htail].
  pose proof (f_equal fst Hhead) as Hname. pose proof (f_equal snd Hhead) as Hversion.
  simpl in Hname, Hversion. cbn [list_find]. rewrite <- Hname.
  case_decide; simpl; [congruence|].
  specialize (IH _ Htail).
  destruct (list_find _ l1) as [[i1 q1]|], (list_find _ l2) as [[i2 q2]|];
    simpl in *; congruence.
Qed.

Lemma addPair_nameAndVersion (rushConfig1 rushConfig2 : RushConfig.t)
    (rushProject : RushConfigProject.t) (t : IPackageJson.t) (pair : Pair) :
  nameAndVersion <$> RushConfig.projects rushConfig1
  = nameAndVersion <$> RushConfig.projects rushConfig2 →
  addPair rushConfig1 rushProject t pair = addPair rushConfig2 rushProject t pair.
Proof.
  intros Heq. unfold addPair, RushConfig.getProjectByName.
  pose proof (find_nameAndVersion (packageName pair) _ _ Heq) as Hfind.
  destruct (list_find _ (RushConfig.projects rushConfig1)) as [[i1 q1]|],
           (list_find _ (RushConfig.projects rushConfig2)) as [[i2 q2]|];
    simpl in *; try done.
  injection Hfind as ->. done.
Qed.

(** The temp package.json of a project depends on the Rush projects of
    the configuration only through their package names and versions: what
    those projects themselves depend on, their temp project names and their
    exemptions play no part. *)
Theorem createTempPackageJson_reads_names_and_versions
    (rushConfig1 rushConfig2 : RushConfig.t) (rushProject : RushConfigProject.t) :
  nameAndVersion <$> RushConfig.projects rushConfig1
  = nameAndVersion <$> RushConfig.projects rushConfig2 →
  createTempPackageJson rushConfig1 rushProject
  = createTempPackageJson rushConfig2 rushProject.
Proof.
  intros Heq. unfold createTempPackageJson.
  generalize (initialTempPackageJson rushProject).
  induction (collectPairs (RushConfigProject.packageJson rushProject))
    as [|pair pairs IH]; intros t; simpl; [done|].
  by rewrite IH, (addPair_nameAndVersion _ _ _ _ _ Heq).
Qed.

End OtherProjects.

(** * Further properties of the run *)
Section RunState.
Context `{Semver} `{Folders}.
Variable rushConfig : RushConfig.t.

Lemma header_fold (rushProject : RushConfigProject.t) (pairs : list Pair)
    (t : IPackageJson.t) :
  let t' := fold_left (addPair rushConfig rushProject) pairs t in
  IPackageJson.name t' = IPackageJson.name t
  ∧ IPackageJson.version t' = IPackageJson.version t
  ∧ IPackageJson.private t' = IPackageJson.private t.
Proof.
  revert t. induction pairs as [|pair pairs IH]; intros t; simpl; [done|].
  destruct (IH (addPair rushConfig rushProject t pair)) as (-> & -> & ->).
  rewrite addPair_classify. by destruct (classify _ _ _).
Qed.

Lemma createTempPackageJson_header (p : RushConfigProject.t) :
  IPackageJson.name (createTempPackageJson rushConfig p)
    = RushConfigProject.tempProjectName p
  ∧ IPackageJson.version (createTempPackageJson rushConfig p) = "0.0.0"
  ∧ IPackageJson.private (createTempPackageJson rushConfig p) = true.
Proof.
  unfold createTempPackageJson.
  destruct (header_fold p (collectPairs (RushConfigProject.packageJson p))
              (initialTempPackageJson p)) as (-> & -> & ->).
  unfold initialTempPackageJson. by destruct (PackageJson.optionalDependencies _).
Qed.

Lemma tempProjectsLoop_header (seen : list string)
    (projects : list RushConfigProject.t) :
  Forall (λ e, IPackageJson.name e.2 = e.1
               ∧ IPackageJson.version e.2 = "0.0.0"
               ∧ IPackageJson.private e.2 = true)
         (omap (λ e, pair e.1 <$> e.2)
               (tempProjectsLoop rushConfig seen projects).1).
Proof.
  revert seen. induction projects as [|p projects IH]; intros seen; [done|].
  cbn [tempProjectsLoop]. case_bool_decide; [done|].
  destruct (projectError rushConfig p); [done|]. simpl.
  apply Forall_cons. split; [apply createTempPackageJson_header | apply IH].
Qed.

(** Every package.json saved under common/temp_modules is named after its
    folder, has version 0.0.0 and is private. *)
Theorem saved_package_json_header (lazy : bool) (w : World) :
  Forall (λ e, IPackageJson.name e.2 = e.1
               ∧ IPackageJson.version e.2 = "0.0.0"
               ∧ IPackageJson.private e.2 = true)
         (tempPackageJsonFiles (onExecute rushConfig lazy w).2).
Proof.
  rewrite onExecute_run. unfold tempPackageJsonFiles. cbn [snd fs tempModules].
  apply tempProjectsLoop_header.
Qed.

Lemma tempProjectsLoop_names (seen : list string)
    (projects : list RushConfigProject.t) :
  (tempProjectsLoop rushConfig seen projects).1.*1
  `prefix_of` RushConfigProject.tempProjectName <$> projects.
Proof.
  revert seen. induction projects as [|p projects IH]; intros seen; [done|].
  cbn [tempProjectsLoop]. rewrite fmap_cons.
  case_bool_decide; [apply prefix_nil|].
  destruct (projectError rushConfig p); simpl.
  - apply prefix_cons, prefix_nil.
  - apply prefix_cons, IH.
Qed.

Lemma tempProjectsLoop_distinct (seen : list string)
    (projects : list RushConfigProject.t) :
  NoDup seen →
  NoDup (seen ++ (folderKey <$> (tempProjectsLoop rushConfig seen projects).1.*1)).
Proof.
  revert seen. induction projects as [|p projects IH]; intros seen Hseen.
  - simpl. by rewrite app_nil_r.
  - cbn [tempProjectsLoop]. case_bool_decide as Hin; simpl.
    + by rewrite app_nil_r.
    + assert (NoDup (seen ++ [folderKey (RushConfigProject.tempProjectName p)]))
        as Hseen'.
      { apply NoDup_app. split_and!; [done | | apply NoDup_singleton].
        by intros x Hx ->%list_elem_of_singleton. }
      destruct (projectError rushConfig p); simpl; [done|].
      specialize (IH _ Hseen'). by rewrite <- app_assoc in IH.
Qed.

Lemma tempProjectsLoop_all_but_last (seen : list string)
    (projects : list RushConfigProject.t)
    (init : list (string * option IPackageJson.t)) (e : string * option IPackageJson.t) :
  (tempProjectsLoop rushConfig seen projects).1 = init ++ [e] →
  Forall (λ e, is_Some e.2) init.
Proof.
  revert seen init. induction projects as [|p projects IH]; intros seen init.
  - simpl. by destruct init.
  - cbn [tempProjectsLoop]. case_bool_decide; [by destruct init|].
    destruct (projectError rushConfig p); simpl.
    + destruct init as [|? [|? ?]]; [done | done | done].
    + destruct init as [|e' init]; [done|].
      intros [= <- Hrest]. apply Forall_cons. split; [by eexists|]. by eapply IH.
Qed.

(** The state the action leaves for the npm steps that follow, or stops
    in when the loop over the projects throws (temp project names being
    path segments): common/npm-shrinkwrap.json is deleted, and
    common/temp_modules holds nothing of an earlier run but only folders of
    the first projects of the configuration, in their order and pairwise
    distinct; every folder but the last holds its package.json, and when
    the loop completed there is one folder per project, each with its
    package.json. *)
Theorem stale_state_removed (lazy : bool) (w : World) :
  Forall (λ p, isPathSegment (RushConfigProject.tempProjectName p) = true)
         (RushConfig.projects rushConfig) →
  shrinkwrapFile (fs (onExecute rushConfig lazy w).2) = false
  ∧ ∃ entries,
      tempModules (fs (onExecute rushConfig lazy w).2) = Some entries
      ∧ entries.*1 `prefix_of`
          RushConfigProject.tempProjectName <$> RushConfig.projects rushConfig
      ∧ NoDup (folderKey <$> entries.*1)
      ∧ (∀ init e, entries = init ++ [e] → Forall (λ e, is_Some e.2) init)
      ∧ ((onExecute rushConfig lazy w).1 = Normal () →
         entries.*1 = RushConfigProject.tempProjectName <$> RushConfig.projects rushConfig
         ∧ Forall (λ e, is_Some e.2) entries).
Proof.
  intros _. rewrite onExecute_run. cbn [fst snd fs shrinkwrapFile tempModules].
  split; [done|]. eexists. split; [done|]. split_and!.
  - apply tempProjectsLoop_names.
  - apply (tempProjectsLoop_distinct [] _ (NoDup_nil_2 (A:=string))).
  - apply tempProjectsLoop_all_but_last.
  - destruct (tempProjectsLoop _ _ _).2 eqn:Hloop; [done|]. intros _.
    rewrite tempProjectsLoop_complete by done. unfold savedTempProjects.
    rewrite <- list_fmap_compose. split; [done|].
    apply Forall_fmap, Forall_forall. intros p _. by eexists.
Qed.

Lemma startsWith_spec (prefix s : string) :
  startsWith prefix s = true ↔ ∃ rest, s = (prefix ++ rest)%string.
Proof.
  unfold startsWith. revert s. induction prefix as [|a prefix IH]; intros s.
  - destruct s; simpl; split; eauto.
  - destruct s as [|b s]; simpl.
    + split; [done|]. by intros [rest ?].
    + destruct (ascii_dec a b) as [->|Hne].
      * rewrite IH. split; intros [rest Hrest]; exists rest.
        -- by rewrite Hrest.
        -- change (String b s = String b (String.append prefix rest)) in Hrest.
           congruence.
      * split; [done|]. intros [rest Hrest].
        change (String b s = String a (String.append prefix rest)) in Hrest.
        congruence.
Qed.

(** In the state the action leaves for the npm steps that follow (or
    stops in before them): with [--lazy], common/node_modules is kept but
    every entry whose name starts with [rush-] has been removed from it,
    and only those, the other entries keeping their order; without
    [--lazy] the folder has been removed. *)
Theorem node_modules_cleanup (lazy : bool) (w : World) :
  match lazy, nodeModules (fs w) with
  | true, Some entries =>
      ∃ kept,
        nodeModules (fs (onExecute rushConfig lazy w).2) = Some kept
        ∧ kept `sublist_of` entries
        ∧ ∀ entry, entry ∈ kept
                   ↔ entry ∈ entries ∧ ¬ ∃ rest, entry = ("rush-" ++ rest)%string
  | _, _ => nodeModules (fs (onExecute rushConfig lazy w).2) = None
  end.
Proof.
  rewrite onExecute_run. cbn [snd fs nodeModules]. unfold cleanedNodeModules.
  destruct lazy; [|by destruct (nodeModules (fs w))].
  destruct (nodeModules (fs w)) as [entries|]; [|done]. simpl.
  eexists. split; [done|]. split; [apply sublist_filter|].
  intros entry. rewrite list_elem_of_filter, <- startsWith_spec.
  rewrite Is_true_true. tauto.
Qed.

Lemma commonPackageJson_fold (projects : list RushConfigProject.t)
    (c : PackageJson.t) (o : JsObject.t string) :
  PackageJson.dependencies c = Some o →
  JsObject.wf o →
  let c' := fold_left (λ c p, setCommonDependency
                                (RushConfigProject.tempProjectName p)
                                ("file:./temp_modules/"
                                 ++ RushConfigProject.tempProjectName p)%string c)
                      projects c in
  ∃ o', PackageJson.dependencies c' = Some o'
        ∧ JsObject.wf o'
        ∧ (∀ n, JsObject.get n o'
                = if decide (n ∈ RushConfigProject.tempProjectName <$> projects)
                  then Some ("file:./temp_modules/" ++ n)%string
                  else JsObject.get n o)
        ∧ PackageJson.name c' = PackageJson.name c
        ∧ PackageJson.version c' = PackageJson.version c
        ∧ PackageJson.private c' = PackageJson.private c
        ∧ PackageJson.devDependencies c' = PackageJson.devDependencies c
        ∧ PackageJson.optionalDependencies c' = PackageJson.optionalDependencies c.
Proof.
  revert c o. induction projects as [|p projects IH]; intros c o Hc Hwf; simpl.
  - exists o. by split_and!.
  - edestruct (IH (setCommonDependency (RushConfigProject.tempProjectName p)
                     ("file:./temp_modules/" ++ RushConfigProject.tempProjectName p)%string
                     c))
      as (o' & Ho' & Hwf' & Hget & Hrest).
    { simpl. rewrite Hc. done. }
    { by apply wf_set. }
    exists o'. split_and!; try done; try apply Hrest.
    intros n. rewrite Hget, get_set.
    destruct (decide (n ∈ RushConfigProject.tempProjectName <$> projects)) as [Hin|Hin].
    + rewrite decide_True; [done|]. by apply list_elem_of_further.
    + destruct (decide (RushConfigProject.tempProjectName p = n)) as [->|Hne].
      * rewrite decide_True; [done|]. apply list_elem_of_here.
      * rewrite decide_False; [done|].
        intros [?|?]%elem_of_cons; [congruence | done].
Qed.

Lemma completed_NoDup (lazy : bool) (w : World) :
  (onExecute rushConfig lazy w).1 = Normal () →
  (tempProjectsLoop rushConfig [] (RushConfig.projects rushConfig)).2 = None
  ∧ NoDup (RushConfigProject.tempProjectName <$> RushConfig.projects rushConfig).
Proof.
  rewrite onExecute_run. cbn [fst].
  destruct (tempProjectsLoop _ _ _).2 eqn:Hloop; [done|]. intros _.
  split; [done|]. apply tempProjectsLoop_None in Hloop as [Hfresh _].
  apply allFresh_nil_NoDup in Hfresh. unfold folderKeys in Hfresh.
  apply (NoDup_fmap_1 folderKey). by rewrite <- list_fmap_compose.
Qed.

(** When the run completes, common/package.json is the private package
    [rush-common], version 0.0.0, whose [dependencies] have exactly one
    entry per Rush project: the temp project name, pointing at its folder
    under ./temp_modules; it has no other dependency field. *)
Theorem common_package_json_lists_temp_projects (lazy : bool) (w : World) :
  (onExecute rushConfig lazy w).1 = Normal () →
  ∃ c deps,
    commonPackageJsonFile (fs (onExecute rushConfig lazy w).2) = Some c
    ∧ PackageJson.name c = "rush-common"
    ∧ PackageJson.version c = "0.0.0"
    ∧ PackageJson.private c = Some true
    ∧ PackageJson.dependencies c = Some deps
    ∧ PackageJson.devDependencies c = None
    ∧ PackageJson.optionalDependencies c = None
    ∧ (∀ n, JsObject.get n deps
            = if decide (n ∈ RushConfigProject.tempProjectName
                               <$> RushConfig.projects rushConfig)
              then Some ("file:./temp_modules/" ++ n)%string
              else None)
    ∧ JsObject.keys deps
      ≡ₚ RushConfigProject.tempProjectName <$> RushConfig.projects rushConfig.
Proof.
  intros [Hloop Hnd]%completed_NoDup.
  rewrite onExecute_run. cbn [fst snd fs commonPackageJsonFile]. rewrite Hloop.
  destruct (commonPackageJson_fold (RushConfig.projects rushConfig)
              initialCommonPackageJson [] eq_refl (NoDup_nil_2 (A:=string)))
    as (deps & Hdeps & Hwf & Hget & Hname & Hversion & Hprivate & Hdev & Hopt).
  exists (commonPackageJsonOf (RushConfig.projects rushConfig)), deps.
  split_and!; try done.
  apply NoDup_Permutation; [done | done |].
  intros n. specialize (Hget n).
  destruct (decide (n ∈ JsObject.keys deps)) as [Hin|Hin].
  - split; [|done]. intros _. case_decide; [done|].
    simpl in Hget. by apply (get_None (V:=string)) in Hget.
  - split; [done|]. intros Hn. rewrite decide_True in Hget by done.
    apply (get_None (V:=string)) in Hin. congruence.
Qed.

(** When the run completes, every dependency of common/package.json
    resolves: the folder it points at exists under common/temp_modules and
    holds a package.json whose name is the dependency's name. *)
Theorem common_dependencies_resolve (lazy : bool) (w : World) (n : string) :
  (onExecute rushConfig lazy w).1 = Normal () →
  is_Some ((commonPackageJsonFile (fs (onExecute rushConfig lazy w).2)
              ≫= PackageJson.dependencies) ≫= JsObject.get n) →
  ∃ t, (n, t) ∈ tempPackageJsonFiles (onExecute rushConfig lazy w).2
       ∧ IPackageJson.name t = n.
Proof.
  intros [Hloop _]%completed_NoDup.
  rewrite onExecute_run. cbn [fst snd fs commonPackageJsonFile]. rewrite Hloop.
  simpl.
  destruct (commonPackageJson_fold (RushConfig.projects rushConfig)
              initialCommonPackageJson [] eq_refl (NoDup_nil_2 (A:=string)))
    as (deps & Hdeps & _ & Hget & _).
  unfold commonPackageJsonOf. rewrite Hdeps. simpl. rewrite Hget.
  case_decide as Hin; [|by intros [? ?]]. intros _.
  apply list_elem_of_fmap in Hin as (p & -> & Hp).
  exists (createTempPackageJson rushConfig p). split.
  - erewrite (tempPackageJsonFiles_saved _ _ _ []); [| |done].
    + apply list_elem_of_fmap. by exists p.
    + simpl. by rewrite app_nil_r, tempProjectsLoop_complete.
  - apply createTempPackageJson_header.
Qed.

End RunState.

(** ** The sample workspace, further runs *)

Lemma local_link_is_justified_witness :
  mkPair "utils" "^1.0.0" ∈ collectPairs (RushConfigProject.packageJson Sample.app)
  ∧ RushConfig.getProjectByName Sample.workspace "utils" = Some Sample.utils.
Proof.
  destruct (local_link_is_justified Sample.workspace Sample.app "utils" "^1.0.0")
    as (Hin & lp & Hlp & _).
  - vm_compute. reflexivity.
  - split; [exact Hin | vm_compute; reflexivity].
Defined.

Lemma regular_dependency_is_declared_witness :
  mkPair "left-pad" "latest" ∈ collectPairs (RushConfigProject.packageJson Sample.app).
Proof.
  apply (regular_dependency_is_declared Sample.workspace Sample.app "left-pad" "latest").
  vm_compute. reflexivity.
Defined.





Lemma stale_state_removed_witness :
  shrinkwrapFile
    (fs (onExecute MixedSample.brokenWorkspace true
           (mkWorld (mkFileSystem (Some ["rush-old"; "left-pad"])
                                  (Some [("rush-old", None)]) true None)
                    [] (EOL Sample.emptyWorld))).2)
  = false
  ∧ ∃ entries,
      tempModules
        (fs (onExecute MixedSample.brokenWorkspace true
               (mkWorld (mkFileSystem (Some ["rush-old"; "left-pad"])
                                      (Some [("rush-old", None)]) true None)
                        [] (EOL Sample.emptyWorld))).2)
      = Some entries
      ∧ entries.*1 `prefix_of` ["rush-broken"; "rush-consumer"; "rush-utils"].
Proof.
  destruct (stale_state_removed MixedSample.brokenWorkspace true
              (mkWorld (mkFileSystem (Some ["rush-old"; "left-pad"])
                                     (Some [("rush-old", None)]) true None)
                       [] (EOL Sample.emptyWorld)))
    as (Hs & entries & Ht & Hnames & _).
  - compute_done.
  - split; [exact Hs|]. exists entries. split; [exact Ht | exact Hnames].
Defined.

Lemma reads_names_and_versions_witness :
  createTempPackageJson Sample.workspace Sample.web
  = createTempPackageJson (stripDependencies Sample.workspace) Sample.web.
Proof.
  apply (createTempPackageJson_reads_names_and_versions
           Sample.workspace (stripDependencies Sample.workspace) Sample.web).
  vm_compute. reflexivity.
Defined.

Lemma common_package_json_witness :
  ∃ c, commonPackageJsonFile
         (fs (onExecute Sample.workspace false Sample.emptyWorld).2) = Some c
       ∧ PackageJson.name c = "rush-common".
Proof.
  destruct (common_package_json_lists_temp_projects
              Sample.workspace false Sample.emptyWorld)
    as (c & deps & Hc & Hname & _).
  - vm_compute. reflexivity.
  - exists c. split; [exact Hc | exact Hname].
Defined.

Lemma common_dependencies_resolve_witness :
  ∃ t, ("rush-web", t)
         ∈ tempPackageJsonFiles (onExecute Sample.workspace false Sample.emptyWorld).2
       ∧ IPackageJson.name t = "rush-web".
Proof.
  apply (common_dependencies_resolve Sample.workspace false Sample.emptyWorld "rush-web").
  - vm_compute. reflexivity.
  - vm_compute. by eexists.
Defined.
